(** * gt4sd_trainer.hf_pl.models.core: Lightning modules for language modelling

    A shallow embedding of [src/gt4sd_trainer/hf_pl/models/core.py].

    The file defines five thin [LightningModule] classes.  All the heavy work
    is done by three collaborators that are not part of the repository: the
    transformers hub loaders, torch's optimizers and Lightning's metric
    logger.  They are taken as parameters (class [Transformers]); every
    call into them is recorded in an event trace, so that statements about
    what is called, with which arguments and in which order can be made
    without assuming anything about the collaborators.  Where a statement
    is about what a collaborator guarantees (an embedding table has the
    requested number of rows after a resize), the guarantee is an explicit
    hypothesis of the theorem. *)

From Stdlib Require Import ZArith SpecFloat.
From stdpp Require Import base option strings gmap list.

Local Open Scope Z_scope.
Local Open Scope string_scope.
Local Open Scope list_scope.

(** ** Python values stored in [model_args]

    [LMModule.__init__] types the mapping as
    [Dict[str, Union[float, int, str]]]; [model_name_or_path] is compared
    with [None], and [bool] is a subclass of [int].  A float is an IEEE 754
    binary64 datum, kept as a [spec_float]; no arithmetic is performed on
    it by this file. *)

Inductive py_value : Type :=
| PyNone
| PyBool (b : bool)
| PyInt (z : Z)
| PyFloat (f : spec_float)
| PyStr (s : string).

(** [isinstance(v, float)]: ints and bools are not floats. *)
Definition isinstance_float (v : py_value) : bool :=
  match v with
  | PyFloat _ => true
  | _ => false
  end.

(** [v is not None] *)
Definition is_not_None (v : py_value) : bool :=
  match v with
  | PyNone => false
  | _ => true
  end.

(** ** Exceptions

    [ValueError] is what the module raises itself; [KeyError] and
    [AttributeError] come from subscripting [model_args] and from reading
    an attribute that is not there; whatever a collaborator raises is
    propagated unmodified and kept apart as [Raised_by_library]. *)

Inductive exn : Type :=
| ValueError (msg : string)
| KeyError (key : string)
| AttributeError (name : string)
| Raised_by_library (description : string).

(** What a library entry point answers. *)
Inductive response (A : Type) : Type :=
| Returns (a : A)
| Raises (description : string).
Arguments Returns {A} a.
Arguments Raises {A} description.

(** What a method of the module does. *)
Inductive outcome (A : Type) : Type :=
| Returned (a : A)
| Raised (e : exn).
Arguments Returned {A} a.
Arguments Raised {A} e.

(** The classes whose [from_pretrained] / [from_config] build the network. *)
Inductive model_class : Type :=
| AutoModel
| AutoModelForCausalLM
| AutoModelForMaskedLM
| AutoModelForSeq2SeqLM
| XLNetLMHeadModel.

(** ** The collaborators *)

Class Transformers : Type := {
  config : Type;
  network : Type;
  tokenizer_t : Type;
  tensor : Type;
  model_output : Type;
  parameter : Type;
  optimizer_t : Type;
  scheduler_t : Type;
  (** [AutoConfig.from_pretrained(name, cache_dir=...)] *)
  AutoConfig_from_pretrained : py_value → py_value → response config;
  (** [cls.from_pretrained(name, cache_dir=...)] *)
  from_pretrained : model_class → py_value → py_value → response network;
  (** [cls.from_config(config)] *)
  from_config : model_class → config → response network;
  (** [AutoTokenizer.from_pretrained] with a name and keyword arguments *)
  AutoTokenizer_from_pretrained :
    py_value → gmap string py_value → response tokenizer_t;
  (** [len(tokenizer)] *)
  tokenizer_len : tokenizer_t → Z;
  (** the tokenizer's [sep_token] and [pad_token] attributes *)
  sep_token : tokenizer_t → option string;
  pad_token : tokenizer_t → option string;
  (** [model.resize_token_embeddings(n)]; the network is updated in place,
      here the updated network is returned *)
  resize_token_embeddings : network → Z → response network;
  (** number of rows of the network's token-embedding tables *)
  embedding_rows : network → Z;
  (** calling the network, with positional and keyword arguments *)
  network_call : network → list tensor → gmap string tensor → response model_output;
  (** the [logits] and [loss] attributes of what the network returns *)
  output_logits : model_output → option tensor;
  output_loss : model_output → option tensor;
  (** the parameters of a network, as [nn.Module.parameters] yields them *)
  network_parameters : network → list parameter;
  (** [optim.AdamW(params, lr=..., weight_decay=...)] *)
  AdamW : list parameter → py_value → py_value → response optimizer_t;
  (** [optim.lr_scheduler.StepLR(optimizer, step_size, gamma)] *)
  StepLR : optimizer_t → Z → py_value → response scheduler_t;
  (** [LightningModule.log(name, value)] *)
  LightningModule_log : string → tensor → response unit;
}.

(** The five classes of the file, below [BaseLightningModule]. *)
Inductive module_class : Type :=
| LMModule
| MLMModule
| CGMModule
| CLMModule
| PLMModule.

(** [LM_MODULE_FACTORY] *)
Definition LM_MODULE_FACTORY : gmap string module_class :=
  <["lm" := LMModule]> (<["mlm" := MLMModule]> (<["clm" := CLMModule]>
  (<["cgm" := CGMModule]> (<["plm" := PLMModule]> ∅)))).

Section Modules.
Context {T : Transformers}.

(** Calls that leave the module, in the order they are made. *)
Inductive event : Type :=
| Call_AutoConfig_from_pretrained (name cache_dir : py_value)
| Call_from_pretrained (cls : model_class) (name cache_dir : py_value)
| Call_from_config (cls : model_class) (cfg : config)
| Call_AutoTokenizer_from_pretrained (name : py_value) (kwargs : gmap string py_value)
| Call_resize_token_embeddings (net : network) (n : Z)
| Call_network (net : network) (args : list tensor) (kwargs : gmap string tensor)
| Call_AdamW (params : list parameter) (lr weight_decay : py_value)
| Call_StepLR (opt : optimizer_t) (step_size : Z) (gamma : py_value)
| Call_log (name : string) (value : tensor)
| Logger_info (msg : string).

(** The attributes of [self].  [None] is an attribute that has not been
    assigned: [self.model: torch.nn.Module] is an annotation, not an
    assignment. *)
Record LightningModule : Type := {
  model_args : gmap string py_value;
  cache_dir : option py_value;
  model : option network;
  tokenizer : option tokenizer_t;
}.

(** A running method sees [self] and the trace of calls made so far. *)
Record state : Type := {
  self : LightningModule;
  events : list event;
}.

Definition M (A : Type) : Type := state → state * outcome A.

#[export] Instance M_ret : MRet M := λ A a st, (st, Returned a).
#[export] Instance M_bind : MBind M := λ A B k m st,
  match m st with
  | (st', Returned a) => k a st'
  | (st', Raised e) => (st', Raised e)
  end.

Definition raise {A} (e : exn) : M A := λ st, (st, Raised e).

Definition emit (ev : event) : M unit := λ st,
  ({| self := self st; events := events st ++ [ev] |}, Returned tt).

(** A call into a collaborator: it is recorded, then it returns or its
    exception propagates. *)
Definition call_library {A} (ev : event) (r : response A) : M A :=
  _ ← emit ev;
  match r with
  | Returns a => mret a
  | Raises d => raise (Raised_by_library d)
  end.

(** [self.model_args[key]] *)
Definition subscript_model_args (key : string) : M py_value := λ st,
  match model_args (self st) !! key with
  | Some v => (st, Returned v)
  | None => (st, Raised (KeyError key))
  end.

(** [self.cache_dir], [self.model], [self.tokenizer] read *)
Definition get_cache_dir : M py_value := λ st,
  match cache_dir (self st) with
  | Some v => (st, Returned v)
  | None => (st, Raised (AttributeError "cache_dir"))
  end.

Definition get_model : M network := λ st,
  match model (self st) with
  | Some net => (st, Returned net)
  | None => (st, Raised (AttributeError "model"))
  end.

Definition get_tokenizer : M tokenizer_t := λ st,
  match tokenizer (self st) with
  | Some tok => (st, Returned tok)
  | None => (st, Raised (AttributeError "tokenizer"))
  end.

(** [self.cache_dir = v], [self.model = net], [self.tokenizer = tok] *)
Definition with_cache_dir (v : py_value) (s : LightningModule) : LightningModule :=
  {| model_args := model_args s; cache_dir := Some v;
     model := model s; tokenizer := tokenizer s |}.

Definition with_model (net : network) (s : LightningModule) : LightningModule :=
  {| model_args := model_args s; cache_dir := cache_dir s;
     model := Some net; tokenizer := tokenizer s |}.

Definition with_tokenizer (tok : tokenizer_t) (s : LightningModule) : LightningModule :=
  {| model_args := model_args s; cache_dir := cache_dir s;
     model := model s; tokenizer := Some tok |}.

Definition set_cache_dir (v : py_value) : M unit := λ st,
  ({| self := with_cache_dir v (self st); events := events st |}, Returned tt).

Definition set_model (net : network) : M unit := λ st,
  ({| self := with_model net (self st); events := events st |}, Returned tt).

Definition set_tokenizer (tok : tokenizer_t) : M unit := λ st,
  ({| self := with_tokenizer tok (self st); events := events st |}, Returned tt).

(** ** [BaseLightningModule] *)

(** [__init__]: the fresh object has [model_args] and nothing else. *)
Definition BaseLightningModule__init__ (args : gmap string py_value) : LightningModule :=
  {| model_args := args; cache_dir := None; model := None; tokenizer := None |}.

(** [forward]: [return self.model(x).logits] *)
Definition forward (x : tensor) : M tensor :=
  net ← get_model;
  out ← call_library (Call_network net [x] ∅) (network_call net [x] ∅);
  match output_logits out with
  | Some logits => mret logits
  | None => raise (AttributeError "logits")
  end.

(** [self.parameters()]: the parameters of the sub-modules that have been
    assigned, and [self.model] is the only one this file assigns. *)
Definition module_parameters (s : LightningModule) : list parameter :=
  match model s with
  | Some net => network_parameters net
  | None => []
  end.

Definition parameters : M (list parameter) := λ st,
  (st, Returned (module_parameters (self st))).

(** The values of the mapping [configure_optimizers] returns. *)
Inductive py_object : Type :=
| Optimizer (o : optimizer_t)
| Scheduler (s : scheduler_t)
| Str (s : string).

Definition configure_optimizers : M (gmap string py_object) :=
  lr ← subscript_model_args "lr";
  if negb (isinstance_float lr) then
    raise (ValueError "Learning rate should be float")
  else
  lr_decay ← subscript_model_args "lr_decay";
  if negb (isinstance_float lr_decay) then
    raise (ValueError "Learning rate decay rate should be float")
  else
  params ← parameters;
  lr ← subscript_model_args "lr";
  weight_decay ← subscript_model_args "weight_decay";
  optimizer ← call_library (Call_AdamW params lr weight_decay)
                           (AdamW params lr weight_decay);
  lr_decay ← subscript_model_args "lr_decay";
  scheduler ← call_library (Call_StepLR optimizer 1 lr_decay)
                           (StepLR optimizer 1 lr_decay);
  mret (<["optimizer" := Optimizer optimizer]>
       (<["lr_scheduler" := Scheduler scheduler]>
       (<["monitor" := Str "val_loss"]> ∅))).

(** [training_step]; [batch_idx] is unused. *)
Definition training_step (batch : gmap string tensor) (batch_idx : Z) : M tensor :=
  net ← get_model;
  out ← call_library (Call_network net [] batch) (network_call net [] batch);
  match output_loss out with
  | None => raise (AttributeError "loss")
  | Some loss =>
    _ ← call_library (Call_log "train_loss" loss) (LightningModule_log "train_loss" loss);
    mret loss
  end.

(** [validation_step]; [batch_idx] is unused. *)
Definition validation_step (batch : gmap string tensor) (batch_idx : Z) : M tensor :=
  net ← get_model;
  out ← call_library (Call_network net [] batch) (network_call net [] batch);
  match output_loss out with
  | None => raise (AttributeError "loss")
  | Some loss =>
    _ ← call_library (Call_log "val_loss" loss) (LightningModule_log "val_loss" loss);
    mret loss
  end.

(** ** [init_model], one definition per class as in the source *)

Definition LMModule_init_model : M unit :=
  name ← subscript_model_args "model_name_or_path";
  if is_not_None name then
    name ← subscript_model_args "model_name_or_path";
    cache ← get_cache_dir;
    net ← call_library (Call_from_pretrained AutoModel name cache)
                       (from_pretrained AutoModel name cache);
    set_model net
  else
    cfg_name ← subscript_model_args "model_config_name";
    cache ← get_cache_dir;
    cfg ← call_library (Call_AutoConfig_from_pretrained cfg_name cache)
                       (AutoConfig_from_pretrained cfg_name cache);
    net ← call_library (Call_from_config AutoModel cfg) (from_config AutoModel cfg);
    _ ← set_model net;
    emit (Logger_info "Training from scratch").

(** The keyword arguments of the tokenizer load: [use_fast=False], and for
    the causal-LM class also [sep_token] and [pad_token]. *)
Definition tokenizer_kwargs : gmap string py_value :=
  <["use_fast" := PyBool false]> ∅.

Definition CLM_tokenizer_kwargs : gmap string py_value :=
  <["sep_token" := PyStr "<|sep|>"]> (<["pad_token" := PyStr "<|pad|>"]>
  (<["use_fast" := PyBool false]> ∅)).

Definition MLMModule_init_model : M unit :=
  name ← subscript_model_args "model_name_or_path";
  _ ← (if is_not_None name then
    name ← subscript_model_args "model_name_or_path";
    cache ← get_cache_dir;
    net ← call_library (Call_from_pretrained AutoModelForMaskedLM name cache)
                       (from_pretrained AutoModelForMaskedLM name cache);
    set_model net
  else
    cfg_name ← subscript_model_args "model_config_name";
    cache ← get_cache_dir;
    cfg ← call_library (Call_AutoConfig_from_pretrained cfg_name cache)
                       (AutoConfig_from_pretrained cfg_name cache);
    net ← call_library (Call_from_config AutoModelForMaskedLM cfg)
                       (from_config AutoModelForMaskedLM cfg);
    _ ← set_model net;
    emit (Logger_info "Training from scratch"));
  tok_name ← subscript_model_args "tokenizer";
  tok ← call_library
    (Call_AutoTokenizer_from_pretrained tok_name tokenizer_kwargs)
    (AutoTokenizer_from_pretrained tok_name tokenizer_kwargs);
  _ ← set_tokenizer tok;
  net ← get_model;
  tok ← get_tokenizer;
  net' ← call_library (Call_resize_token_embeddings net (tokenizer_len tok))
                      (resize_token_embeddings net (tokenizer_len tok));
  set_model net'.

Definition CGMModule_init_model : M unit :=
  name ← subscript_model_args "model_name_or_path";
  _ ← (if is_not_None name then
    name ← subscript_model_args "model_name_or_path";
    cache ← get_cache_dir;
    net ← call_library (Call_from_pretrained AutoModelForSeq2SeqLM name cache)
                       (from_pretrained AutoModelForSeq2SeqLM name cache);
    set_model net
  else
    cfg_name ← subscript_model_args "model_config_name";
    cache ← get_cache_dir;
    cfg ← call_library (Call_AutoConfig_from_pretrained cfg_name cache)
                       (AutoConfig_from_pretrained cfg_name cache);
    net ← call_library (Call_from_config AutoModelForSeq2SeqLM cfg)
                       (from_config AutoModelForSeq2SeqLM cfg);
    _ ← set_model net;
    emit (Logger_info "Training from scratch"));
  tok_name ← subscript_model_args "tokenizer";
  tok ← call_library
    (Call_AutoTokenizer_from_pretrained tok_name tokenizer_kwargs)
    (AutoTokenizer_from_pretrained tok_name tokenizer_kwargs);
  _ ← set_tokenizer tok;
  net ← get_model;
  tok ← get_tokenizer;
  net' ← call_library (Call_resize_token_embeddings net (tokenizer_len tok))
                      (resize_token_embeddings net (tokenizer_len tok));
  set_model net'.

Definition CLMModule_init_model : M unit :=
  name ← subscript_model_args "model_name_or_path";
  _ ← (if is_not_None name then
    name ← subscript_model_args "model_name_or_path";
    cache ← get_cache_dir;
    net ← call_library (Call_from_pretrained AutoModelForCausalLM name cache)
                       (from_pretrained AutoModelForCausalLM name cache);
    set_model net
  else
    cfg_name ← subscript_model_args "model_config_name";
    cache ← get_cache_dir;
    cfg ← call_library (Call_AutoConfig_from_pretrained cfg_name cache)
                       (AutoConfig_from_pretrained cfg_name cache);
    net ← call_library (Call_from_config AutoModelForCausalLM cfg)
                       (from_config AutoModelForCausalLM cfg);
    _ ← set_model net;
    emit (Logger_info "Training from scratch"));
  tok_name ← subscript_model_args "tokenizer";
  tok ← call_library
    (Call_AutoTokenizer_from_pretrained tok_name CLM_tokenizer_kwargs)
    (AutoTokenizer_from_pretrained tok_name CLM_tokenizer_kwargs);
  _ ← set_tokenizer tok;
  net ← get_model;
  tok ← get_tokenizer;
  net' ← call_library (Call_resize_token_embeddings net (tokenizer_len tok))
                      (resize_token_embeddings net (tokenizer_len tok));
  set_model net'.

Definition PLMModule_init_model : M unit :=
  name ← subscript_model_args "model_name_or_path";
  _ ← (if is_not_None name then
    name ← subscript_model_args "model_name_or_path";
    cache ← get_cache_dir;
    net ← call_library (Call_from_pretrained XLNetLMHeadModel name cache)
                       (from_pretrained XLNetLMHeadModel name cache);
    set_model net
  else
    cfg_name ← subscript_model_args "model_config_name";
    cache ← get_cache_dir;
    cfg ← call_library (Call_AutoConfig_from_pretrained cfg_name cache)
                       (AutoConfig_from_pretrained cfg_name cache);
    net ← call_library (Call_from_config XLNetLMHeadModel cfg)
                       (from_config XLNetLMHeadModel cfg);
    _ ← set_model net;
    emit (Logger_info "Training from scratch"));
  tok_name ← subscript_model_args "tokenizer";
  tok ← call_library
    (Call_AutoTokenizer_from_pretrained tok_name tokenizer_kwargs)
    (AutoTokenizer_from_pretrained tok_name tokenizer_kwargs);
  _ ← set_tokenizer tok;
  net ← get_model;
  tok ← get_tokenizer;
  net' ← call_library (Call_resize_token_embeddings net (tokenizer_len tok))
                      (resize_token_embeddings net (tokenizer_len tok));
  set_model net'.

(** [self.init_model()]: the method of the object's class. *)
Definition init_model (cls : module_class) : M unit :=
  match cls with
  | LMModule => LMModule_init_model
  | MLMModule => MLMModule_init_model
  | CGMModule => CGMModule_init_model
  | CLMModule => CLMModule_init_model
  | PLMModule => PLMModule_init_model
  end.

(** [LMModule.__init__], inherited unchanged by the four subclasses: the
    object is created by [BaseLightningModule.__init__], [cache_dir] is set
    to [None] and then to [model_args["cache_dir"]] when that key is in
    the mapping, and [init_model] runs.  The object exists for the caller
    only when no exception was raised. *)
Definition LMModule__init__ (cls : module_class) (args : gmap string py_value)
    (trace : list event) : list event * outcome LightningModule :=
  let body : M unit :=
    _ ← set_cache_dir PyNone;
    _ ← match args !! "cache_dir" with
        | Some v => set_cache_dir v
        | None => mret tt
        end;
    init_model cls in
  match body {| self := BaseLightningModule__init__ args; events := trace |} with
  | (st, Returned _) => (events st, Returned (self st))
  | (st, Raised e) => (events st, Raised e)
  end.

(** The class whose loaders a module class uses. *)
Definition auto_class (cls : module_class) : model_class :=
  match cls with
  | LMModule => AutoModel
  | MLMModule => AutoModelForMaskedLM
  | CGMModule => AutoModelForSeq2SeqLM
  | CLMModule => AutoModelForCausalLM
  | PLMModule => XLNetLMHeadModel
  end.

(** Does the class load a tokenizer? *)
Definition has_tokenizer (cls : module_class) : bool :=
  match cls with
  | LMModule => false
  | _ => true
  end.

(** The keyword arguments a class loads its tokenizer with. *)
Definition class_tokenizer_kwargs (cls : module_class) : gmap string py_value :=
  match cls with
  | CLMModule => CLM_tokenizer_kwargs
  | _ => tokenizer_kwargs
  end.

(** ** The two blocks every [init_model] is made of

    The source repeats them in each class; they are stated once here and
    shown to be what each [init_model] does ([init_model_blocks]). *)

Definition load_network (auto : model_class) : M unit :=
  name ← subscript_model_args "model_name_or_path";
  if is_not_None name then
    name ← subscript_model_args "model_name_or_path";
    cache ← get_cache_dir;
    net ← call_library (Call_from_pretrained auto name cache)
                       (from_pretrained auto name cache);
    set_model net
  else
    cfg_name ← subscript_model_args "model_config_name";
    cache ← get_cache_dir;
    cfg ← call_library (Call_AutoConfig_from_pretrained cfg_name cache)
                       (AutoConfig_from_pretrained cfg_name cache);
    net ← call_library (Call_from_config auto cfg) (from_config auto cfg);
    _ ← set_model net;
    emit (Logger_info "Training from scratch").

Definition attach_tokenizer (kwargs : gmap string py_value) : M unit :=
  tok_name ← subscript_model_args "tokenizer";
  tok ← call_library (Call_AutoTokenizer_from_pretrained tok_name kwargs)
                     (AutoTokenizer_from_pretrained tok_name kwargs);
  _ ← set_tokenizer tok;
  net ← get_model;
  tok ← get_tokenizer;
  net' ← call_library (Call_resize_token_embeddings net (tokenizer_len tok))
                      (resize_token_embeddings net (tokenizer_len tok));
  set_model net'.

(** The object [LMModule.__init__] hands to [init_model]. *)
Definition prepared (args : gmap string py_value) : LightningModule :=
  {| model_args := args; cache_dir := Some (default PyNone (args !! "cache_dir"));
     model := None; tokenizer := None |}.

(** ** The training loop's view

    The orchestration framework calls the four hooks; what they return or
    raise goes to the framework, the module and the trace stay. *)

Inductive hook : Type :=
| Forward (x : tensor)
| Training_step (batch : gmap string tensor) (batch_idx : Z)
| Validation_step (batch : gmap string tensor) (batch_idx : Z)
| Configure_optimizers.

Definition call_hook (h : hook) (st : state) : state :=
  match h with
  | Forward x => (forward x st).1
  | Training_step batch batch_idx => (training_step batch batch_idx st).1
  | Validation_step batch batch_idx => (validation_step batch batch_idx st).1
  | Configure_optimizers => (configure_optimizers st).1
  end.

Definition call_hooks (hs : list hook) (st : state) : state :=
  foldl (λ st h, call_hook h st) st hs.

(** Events that load a tokenizer, and events that resize the tables. *)
Definition is_tokenizer_load (ev : event) : bool :=
  match ev with
  | Call_AutoTokenizer_from_pretrained _ _ => true
  | _ => false
  end.

Definition is_resize (ev : event) : bool :=
  match ev with
  | Call_resize_token_embeddings _ _ => true
  | _ => false
  end.

(** An event that is a tokenizer load or a resize of the given network:
    what may follow once the network has been built. *)
Definition follows_load (net : network) (ev : event) : Prop :=
  match ev with
  | Call_AutoTokenizer_from_pretrained _ _ => True
  | Call_resize_token_embeddings net' _ => net' = net
  | _ => False
  end.

(** How a network came to be: from pretrained weights, or fresh from a
    configuration; with the calls that were made for it. *)
Definition loaded_by (auto : model_class) (args : gmap string py_value)
    (cache : py_value) (net : network) (calls : list event) : Prop :=
  (∃ name,
      args !! "model_name_or_path" = Some name ∧ name ≠ PyNone ∧
      from_pretrained auto name cache = Returns net ∧
      calls = [Call_from_pretrained auto name cache])
  ∨ (∃ cfg_name cfg,
      args !! "model_name_or_path" = Some PyNone ∧
      args !! "model_config_name" = Some cfg_name ∧
      AutoConfig_from_pretrained cfg_name cache = Returns cfg ∧
      from_config auto cfg = Returns net ∧
      calls = [Call_AutoConfig_from_pretrained cfg_name cache;
               Call_from_config auto cfg;
               Logger_info "Training from scratch"]).

(** A computation that leaves [self] as it found it. *)
Definition preserves_self {A} (m : M A) : Prop :=
  ∀ st, self (m st).1 = self st.

(** ** What a computation may emit *)

(** A computation that only appends to the trace, and only events that
    satisfy [P]. *)
Definition emits_only (P : event → Prop) {A} (m : M A) : Prop :=
  ∀ st, ∃ new, events (m st).1 = events st ++ new ∧ Forall P new.

(** The calls a construction of class [cls] may make: the hub loaders of
    the class's own loader class, the tokenizer load with the class's
    keyword arguments and the resize when the class has a tokenizer, and
    the one log line.  The network is not called, no optimizer or
    scheduler is built, no metric is logged. *)
Definition construction_event (cls : module_class) (ev : event) : Prop :=
  match ev with
  | Call_AutoConfig_from_pretrained _ _ => True
  | Call_from_pretrained auto _ _ => auto = auto_class cls
  | Call_from_config auto _ => auto = auto_class cls
  | Call_AutoTokenizer_from_pretrained _ kwargs =>
    has_tokenizer cls = true ∧ kwargs = class_tokenizer_kwargs cls
  | Call_resize_token_embeddings _ _ => has_tokenizer cls = true
  | Logger_info msg => msg = "Training from scratch"
  | Call_network _ _ _ | Call_AdamW _ _ _ | Call_StepLR _ _ _ | Call_log _ _ => False
  end.

(** The calls the four hooks may make: the network, the metric logger
    under one of the two metric names, and the two torch constructors, the
    scheduler with step size 1.  Nothing is loaded from the hub, nothing is
    resized, nothing goes to the module logger. *)
Definition hook_event (ev : event) : Prop :=
  match ev with
  | Call_network _ _ _ => True
  | Call_log name _ => name = "train_loss" ∨ name = "val_loss"
  | Call_AdamW _ _ _ => True
  | Call_StepLR _ step_size _ => step_size = 1
  | Call_AutoConfig_from_pretrained _ _ | Call_from_pretrained _ _ _
  | Call_from_config _ _ | Call_AutoTokenizer_from_pretrained _ _
  | Call_resize_token_embeddings _ _ | Logger_info _ => False
  end.

(** The same object with another mapping in [model_args]. *)
Definition with_model_args (args : gmap string py_value) (s : LightningModule)
    : LightningModule :=
  {| model_args := args; cache_dir := cache_dir s;
     model := model s; tokenizer := tokenizer s |}.

Definition outcome_map {A B} (f : A → B) (o : outcome A) : outcome B :=
  match o with
  | Returned a => Returned (f a)
  | Raised e => Raised e
  end.

(** The entry point an event is a call of. *)
Definition entry_point (ev : event) : string :=
  match ev with
  | Call_AutoConfig_from_pretrained _ _ => "AutoConfig.from_pretrained"
  | Call_from_pretrained _ _ _ => "from_pretrained"
  | Call_from_config _ _ => "from_config"
  | Call_AutoTokenizer_from_pretrained _ _ => "AutoTokenizer.from_pretrained"
  | Call_resize_token_embeddings _ _ => "resize_token_embeddings"
  | Call_network _ _ _ => "model"
  | Call_AdamW _ _ _ => "AdamW"
  | Call_StepLR _ _ _ => "StepLR"
  | Call_log _ _ => "log"
  | Logger_info _ => "logger.info"
  end.

(** [XLNetLMHeadModel] is a concrete model class, not one of the [Auto*]
    factories the four sibling classes use: [from_config] is a method of
    the factories, a concrete class has none, and the call raises whatever
    configuration it is given. *)
Definition concrete_class_lacks_from_config : Prop :=
  ∀ cfg, ∃ d, from_config XLNetLMHeadModel cfg = Raises d.

End Modules.

(** ** A small hub to run the definitions on

    Networks remember their class, where they came from and how many rows
    their embedding tables have; tokenizers their vocabulary size and
    special tokens.  Names that are not strings, and the empty name, do not
    resolve. *)

Module ToyHub.

Record toy_network : Type := {
  toy_class : model_class;
  toy_origin : string;
  toy_rows : Z;
}.

Record toy_tokenizer : Type := {
  toy_vocab : Z;
  toy_sep : option string;
  toy_pad : option string;
}.

Definition resolve {A} (name : py_value) (k : string → A) : response A :=
  match name with
  | PyStr "" => Raises "OSError"
  | PyStr s => Returns (k s)
  | _ => Raises "OSError"
  end.

Definition special (kwargs : gmap string py_value) (key : string) : option string :=
  match kwargs !! key with
  | Some (PyStr s) => Some s
  | _ => None
  end.

Definition load_tokenizer (name : py_value) (kwargs : gmap string py_value)
    : response toy_tokenizer :=
  resolve name (λ _,
    {| toy_vocab := 100 + Z.of_nat (length (option_list (special kwargs "sep_token")))
                        + Z.of_nat (length (option_list (special kwargs "pad_token")));
       toy_sep := special kwargs "sep_token";
       toy_pad := special kwargs "pad_token" |}).

#[export] Instance hub : Transformers := {|
  config := string;
  network := toy_network;
  tokenizer_t := toy_tokenizer;
  tensor := Z;
  model_output := Z;
  parameter := nat;
  optimizer_t := list nat * py_value * py_value;
  scheduler_t := (list nat * py_value * py_value) * Z * py_value;
  AutoConfig_from_pretrained := λ name _, resolve name id;
  from_pretrained := λ cls name _,
    resolve name (λ s, {| toy_class := cls; toy_origin := s; toy_rows := 100 |});
  from_config := λ cls cfg,
    Returns {| toy_class := cls; toy_origin := cfg; toy_rows := 100 |};
  AutoTokenizer_from_pretrained := load_tokenizer;
  tokenizer_len := toy_vocab;
  sep_token := toy_sep;
  pad_token := toy_pad;
  resize_token_embeddings := λ net n,
    Returns {| toy_class := toy_class net; toy_origin := toy_origin net; toy_rows := n |};
  embedding_rows := toy_rows;
  network_call := λ net args kwargs, Returns (toy_rows net);
  output_logits := Some;
  output_loss := Some;
  network_parameters := λ _, [0%nat; 1%nat];
  AdamW := λ params lr wd, Returns (params, lr, wd);
  StepLR := λ opt step gamma, Returns (opt, step, gamma);
  LightningModule_log := λ _ _, Returns tt;
|}.

(** [0.001], [0.5] and [0.01] as binary64 data. *)
Definition f_0_001 : spec_float := S754_finite false 4611686018427388 (-62).
Definition f_0_5 : spec_float := S754_finite false 4503599627370496 (-53).
Definition f_0_01 : spec_float := S754_finite false 5764607523034235 (-59).

Definition pretrained_args : gmap string py_value :=
  <["model_name_or_path" := PyStr "gpt2"]> (<["tokenizer" := PyStr "gpt2"]>
  (<["lr" := PyFloat f_0_001]> (<["lr_decay" := PyFloat f_0_5]>
  (<["weight_decay" := PyFloat f_0_01]> ∅)))).

Definition scratch_args : gmap string py_value :=
  <["model_name_or_path" := PyNone]> (<["model_config_name" := PyStr "gpt2"]>
  (<["tokenizer" := PyStr "gpt2"]> (<["cache_dir" := PyStr "/tmp/cache"]> ∅))).

Definition unresolvable_args : gmap string py_value :=
  <["model_name_or_path" := PyNone]> (<["model_config_name" := PyStr ""]>
  (<["tokenizer" := PyStr "gpt2"]> ∅)).

Definition int_lr_args : gmap string py_value :=
  <["lr" := PyInt 1]> pretrained_args.

Definition str_weight_decay_args : gmap string py_value :=
  <["weight_decay" := PyStr "heavy"]> pretrained_args.

Definition gpt2 : network :=
  {| toy_class := AutoModelForCausalLM; toy_origin := "gpt2"; toy_rows := 102 |}.

Definition gpt2_tokenizer : tokenizer_t :=
  {| toy_vocab := 102; toy_sep := Some "<|sep|>"; toy_pad := Some "<|pad|>" |}.

(** A causal-LM module as construction from ["gpt2"] leaves it. *)
Definition trained (args : gmap string py_value) : LightningModule :=
  {| model_args := args; cache_dir := Some PyNone; model := Some gpt2;
     tokenizer := Some gpt2_tokenizer |}.

Definition gpt2_loaded : network :=
  {| toy_class := AutoModelForCausalLM; toy_origin := "gpt2"; toy_rows := 100 |}.

(** The calls of that construction. *)
Definition clm_trace : list event :=
  [Call_from_pretrained AutoModelForCausalLM (PyStr "gpt2") PyNone;
   Call_AutoTokenizer_from_pretrained (PyStr "gpt2") CLM_tokenizer_kwargs;
   Call_resize_token_embeddings gpt2_loaded 102].

Definition adamw_0_001 : optimizer_t :=
  ([0%nat; 1%nat], PyFloat f_0_001, PyFloat f_0_01).

End ToyHub.

(** ** A stricter hub

    The same carriers, with entry points that refuse what the small hub
    accepts: [XLNetLMHeadModel] has no [from_config], the network wants
    [input_ids], reports a loss only when given [labels], and AdamW wants a
    float [weight_decay]. *)

Module StrictHub.

Definition strict_call (net : ToyHub.toy_network) (args : list Z)
    (kwargs : gmap string Z) : response (Z * option Z) :=
  match args, kwargs !! "input_ids" with
  | [], None => Raises "ValueError"
  | _, _ => Returns (ToyHub.toy_rows net, kwargs !! "labels")
  end.

Definition strict : Transformers := {|
  config := string;
  network := ToyHub.toy_network;
  tokenizer_t := ToyHub.toy_tokenizer;
  tensor := Z;
  model_output := Z * option Z;
  parameter := nat;
  optimizer_t := list nat * py_value * py_value;
  scheduler_t := (list nat * py_value * py_value) * Z * py_value;
  AutoConfig_from_pretrained := λ name _, ToyHub.resolve name id;
  from_pretrained := λ cls name _,
    ToyHub.resolve name (λ s,
      {| ToyHub.toy_class := cls; ToyHub.toy_origin := s; ToyHub.toy_rows := 100 |});
  from_config := λ cls cfg,
    match cls with
    | XLNetLMHeadModel => Raises "AttributeError"
    | _ => Returns {| ToyHub.toy_class := cls; ToyHub.toy_origin := cfg;
                      ToyHub.toy_rows := 100 |}
    end;
  AutoTokenizer_from_pretrained := ToyHub.load_tokenizer;
  tokenizer_len := ToyHub.toy_vocab;
  sep_token := ToyHub.toy_sep;
  pad_token := ToyHub.toy_pad;
  resize_token_embeddings := λ net n,
    Returns {| ToyHub.toy_class := ToyHub.toy_class net;
               ToyHub.toy_origin := ToyHub.toy_origin net; ToyHub.toy_rows := n |};
  embedding_rows := ToyHub.toy_rows;
  network_call := strict_call;
  output_logits := λ out, Some out.1;
  output_loss := λ out, out.2;
  network_parameters := λ _, [0%nat; 1%nat];
  AdamW := λ params lr wd,
    if isinstance_float wd then Returns (params, lr, wd) else Raises "TypeError";
  StepLR := λ opt step gamma, Returns (opt, step, gamma);
  LightningModule_log := λ _ _, Returns tt;
|}.

(** A causal-LM module on this hub. *)
Definition trained (args : gmap string py_value) : @LightningModule strict :=
  {| model_args := args; cache_dir := Some PyNone;
     model := Some (ToyHub.gpt2 : @network strict);
     tokenizer := Some (ToyHub.gpt2_tokenizer : @tokenizer_t strict) |}.

End StrictHub.

(** * Properties *)

Section Properties.
Context {T : Transformers}.

Implicit Types (s : LightningModule) (t : list event) (st : state).
Implicit Types (args : gmap string py_value) (cls : module_class).

(** ** Running the monad by hand *)

Lemma bind_returned {A B} (m : M A) (k : A → M B) st st' a :
  m st = (st', Returned a) → (m ≫= k) st = k a st'.
Proof. intros E. unfold mbind, M_bind. by rewrite E. Qed.

Lemma bind_raised {A B} (m : M A) (k : A → M B) st st' e :
  m st = (st', Raised e) → (m ≫= k) st = (st', Raised e).
Proof. intros E. unfold mbind, M_bind. by rewrite E. Qed.

Lemma subscript_present key v st :
  model_args (self st) !! key = Some v →
  subscript_model_args key st = (st, Returned v).
Proof. intros E. unfold subscript_model_args. by rewrite E. Qed.

Lemma subscript_absent key st :
  model_args (self st) !! key = None →
  subscript_model_args key st = (st, Raised (KeyError key)).
Proof. intros E. unfold subscript_model_args. by rewrite E. Qed.

Lemma call_library_returns {A} ev (r : response A) a st :
  r = Returns a →
  call_library ev r st = ({| self := self st; events := events st ++ [ev] |}, Returned a).
Proof. by intros ->. Qed.

Lemma call_library_raises {A} ev (r : response A) d st :
  r = Raises d →
  call_library ev r st =
    ({| self := self st; events := events st ++ [ev] |}, Raised (Raised_by_library d)).
Proof. by intros ->. Qed.

Lemma get_model_assigned net st :
  model (self st) = Some net → get_model st = (st, Returned net).
Proof. intros E. unfold get_model. by rewrite E. Qed.

Lemma get_model_unassigned st :
  model (self st) = None → get_model st = (st, Raised (AttributeError "model")).
Proof. intros E. unfold get_model. by rewrite E. Qed.

Lemma get_cache_dir_assigned v st :
  cache_dir (self st) = Some v → get_cache_dir st = (st, Returned v).
Proof. intros E. unfold get_cache_dir. by rewrite E. Qed.

(** One primitive operation run on a state, from the hypotheses at hand. *)
Ltac primitive :=
  first
    [ apply subscript_present; cbn [self model_args]; eassumption
    | apply subscript_absent; cbn [self model_args]; eassumption
    | apply call_library_returns; eassumption
    | apply call_library_raises; eassumption
    | apply get_model_assigned; cbn [self model]; eassumption
    | apply get_model_unassigned; cbn [self model]; eassumption
    | apply get_cache_dir_assigned; cbn [self cache_dir]; eassumption
    | reflexivity ].

(** Run the first operation of a sequence. *)
Ltac step :=
  first [ erewrite bind_returned by primitive
        | erewrite bind_raised by primitive ];
  cbn [self events model_args cache_dir model tokenizer negb
       isinstance_float is_not_None].

(** ** [configure_optimizers] *)

(** C3. An [lr] entry that is not a float raises the first [ValueError]; a
    float [lr] with an [lr_decay] entry that is not a float raises the
    second; in both cases no call has been made (the state and the trace
    are as they were, so no optimizer has been constructed).  When both
    entries are floats no [ValueError] is raised. *)
Theorem configure_optimizers_validation s t lr :
  model_args s !! "lr" = Some lr →
  let st := {| self := s; events := t |} in
  (isinstance_float lr = false →
     configure_optimizers st = (st, Raised (ValueError "Learning rate should be float")))
  ∧ (∀ lr_decay,
       model_args s !! "lr_decay" = Some lr_decay →
       isinstance_float lr = true → isinstance_float lr_decay = false →
       configure_optimizers st =
         (st, Raised (ValueError "Learning rate decay rate should be float")))
  ∧ (∀ lr_decay,
       model_args s !! "lr_decay" = Some lr_decay →
       isinstance_float lr = true → isinstance_float lr_decay = true →
       ∀ msg, (configure_optimizers st).2 ≠ Raised (ValueError msg)).
Proof.
  intros Hlr st. subst st. unfold configure_optimizers.
  step. split; [|split].
  - by intros ->.
  - intros lr_decay Hdecay -> Hd. cbn [negb]. step. by rewrite Hd.
  - intros lr_decay Hdecay -> Hd msg. cbn [negb]. step. rewrite Hd. cbn [negb].
    step. step.
    destruct (model_args s !! "weight_decay") as [wd|] eqn:Hwd; step; [|done].
    destruct (AdamW (module_parameters s) lr wd) as [o|d] eqn:Hopt; step; [|done].
    step.
    by destruct (StepLR o 1 lr_decay) as [sch|d] eqn:Hsch; step.
Qed.

(** A missing entry is a [KeyError], raised where the entry is first read. *)
Lemma configure_optimizers_missing_lr s t :
  model_args s !! "lr" = None →
  configure_optimizers {| self := s; events := t |} =
    ({| self := s; events := t |}, Raised (KeyError "lr")).
Proof. intros Hlr. unfold configure_optimizers. by step. Qed.

Lemma configure_optimizers_missing_lr_decay s t lr :
  model_args s !! "lr" = Some lr → isinstance_float lr = true →
  model_args s !! "lr_decay" = None →
  configure_optimizers {| self := s; events := t |} =
    ({| self := s; events := t |}, Raised (KeyError "lr_decay")).
Proof.
  intros Hlr Flr Hdecay. unfold configure_optimizers.
  step. rewrite Flr. cbn [negb]. by step.
Qed.

Lemma configure_optimizers_missing_weight_decay s t lr lr_decay :
  model_args s !! "lr" = Some lr → isinstance_float lr = true →
  model_args s !! "lr_decay" = Some lr_decay → isinstance_float lr_decay = true →
  model_args s !! "weight_decay" = None →
  configure_optimizers {| self := s; events := t |} =
    ({| self := s; events := t |}, Raised (KeyError "weight_decay")).
Proof.
  intros Hlr Flr Hdecay Fdecay Hwd. unfold configure_optimizers.
  step. rewrite Flr. cbn [negb]. step. rewrite Fdecay. cbn [negb].
  by do 3 step.
Qed.

(** C4. With float [lr] and [lr_decay], a [weight_decay] entry, and the two
    constructors returning: the mapping returned has exactly the keys
    [optimizer], [lr_scheduler] and [monitor]; the optimizer is the AdamW
    built over the module's parameters with [lr = model_args["lr"]] and
    [weight_decay = model_args["weight_decay"]], the scheduler is the StepLR
    built on that optimizer with step size 1 and factor
    [model_args["lr_decay"]], and the monitor is ["val_loss"]. *)
Theorem configure_optimizers_output s t lr lr_decay wd o sch :
  model_args s !! "lr" = Some lr →
  model_args s !! "lr_decay" = Some lr_decay →
  model_args s !! "weight_decay" = Some wd →
  isinstance_float lr = true →
  isinstance_float lr_decay = true →
  AdamW (module_parameters s) lr wd = Returns o →
  StepLR o 1 lr_decay = Returns sch →
  ∃ out,
    configure_optimizers {| self := s; events := t |} =
      ({| self := s;
          events := t ++ [Call_AdamW (module_parameters s) lr wd;
                          Call_StepLR o 1 lr_decay] |},
       Returned out)
    ∧ out !! "optimizer" = Some (Optimizer o)
    ∧ out !! "lr_scheduler" = Some (Scheduler sch)
    ∧ out !! "monitor" = Some (Str "val_loss")
    ∧ dom out = ({["optimizer"; "lr_scheduler"; "monitor"]} : gset string).
Proof.
  intros Hlr Hdecay Hwd Flr Fdecay Hopt Hsch.
  eexists. split; [|split; [|split; [|split]]].
  - unfold configure_optimizers.
    step. rewrite Flr. cbn [negb]. step. rewrite Fdecay. cbn [negb].
    do 6 step. by rewrite <- app_assoc.
  - by simplify_map_eq.
  - by simplify_map_eq.
  - by simplify_map_eq.
  - rewrite !dom_insert_L, dom_empty_L. set_solver.
Qed.

(** C10. [weight_decay] is never inspected: with float [lr] and [lr_decay],
    whatever value the mapping holds for it, no [ValueError] is raised and
    the first call made is the AdamW constructor with that very value. *)
Theorem weight_decay_not_validated s t lr lr_decay wd :
  model_args s !! "lr" = Some lr →
  model_args s !! "lr_decay" = Some lr_decay →
  model_args s !! "weight_decay" = Some wd →
  isinstance_float lr = true →
  isinstance_float lr_decay = true →
  let r := configure_optimizers {| self := s; events := t |} in
  (∀ msg, r.2 ≠ Raised (ValueError msg))
  ∧ ∃ rest, events r.1 = t ++ Call_AdamW (module_parameters s) lr wd :: rest.
Proof.
  intros Hlr Hdecay Hwd Flr Fdecay r. subst r. unfold configure_optimizers.
  step. rewrite Flr. cbn [negb]. step. rewrite Fdecay. cbn [negb].
  do 3 step.
  destruct (AdamW (module_parameters s) lr wd) as [o|d] eqn:Hopt; step.
  - step.
    destruct (StepLR o 1 lr_decay) as [sch|d] eqn:Hsch; step;
      (split; [done|]); eexists; cbn; by rewrite <- app_assoc.
  - split; [done|]. by exists [].
Qed.

(** ** [forward], [training_step], [validation_step] *)

(** C7. When the network, called on [x] alone, returns an output with a
    [logits] attribute, [forward] returns those logits as they are; the
    call of the network is the only call made and [self] is untouched. *)
Theorem forward_returns_logits s t net x out logits :
  model s = Some net →
  network_call net [x] ∅ = Returns out →
  output_logits out = Some logits →
  forward x {| self := s; events := t |} =
    ({| self := s; events := t ++ [Call_network net [x] ∅] |}, Returned logits).
Proof.
  intros Hnet Hcall Hlogits. unfold forward.
  do 2 step. by rewrite Hlogits.
Qed.

(** C6. When the network, called with the batch as keyword arguments,
    returns an output with a [loss] attribute and the logger accepts the
    metric, [training_step] logs the loss as ["train_loss"] and returns it,
    and [validation_step] logs it as ["val_loss"] and returns it; the
    network call and the log call are the only calls made, in that
    order. *)
Theorem steps_log_and_return_loss s t net batch batch_idx out loss :
  model s = Some net →
  network_call net [] batch = Returns out →
  output_loss out = Some loss →
  (LightningModule_log "train_loss" loss = Returns () →
   training_step batch batch_idx {| self := s; events := t |} =
     ({| self := s;
         events := t ++ [Call_network net [] batch; Call_log "train_loss" loss] |},
      Returned loss))
  ∧ (LightningModule_log "val_loss" loss = Returns () →
     validation_step batch batch_idx {| self := s; events := t |} =
       ({| self := s;
           events := t ++ [Call_network net [] batch; Call_log "val_loss" loss] |},
        Returned loss)).
Proof.
  intros Hnet Hcall Hloss.
  split; intros Hlog; [unfold training_step | unfold validation_step];
    do 2 step; rewrite Hloss; step; by rewrite <- app_assoc.
Qed.

(** ** The module is not written to after construction *)

Lemma preserves_ret {A} (a : A) : preserves_self (mret a).
Proof. done. Qed.

Lemma preserves_raise {A} e : preserves_self (raise (A:=A) e).
Proof. done. Qed.

Lemma preserves_bind {A B} (m : M A) (k : A → M B) :
  preserves_self m → (∀ a, preserves_self (k a)) → preserves_self (m ≫= k).
Proof.
  intros Hm Hk st. specialize (Hm st). unfold mbind, M_bind.
  destruct (m st) as [st' [a|e]]; cbn in *; [|done].
  by rewrite Hk.
Qed.

Lemma preserves_emit ev : preserves_self (emit ev).
Proof. done. Qed.

Lemma preserves_call_library {A} ev (r : response A) :
  preserves_self (call_library ev r).
Proof. intros st. by destruct r. Qed.

Lemma preserves_subscript key : preserves_self (subscript_model_args key).
Proof. intros st. unfold subscript_model_args. by destruct (_ !! _). Qed.

Lemma preserves_get_model : preserves_self get_model.
Proof. intros st. unfold get_model. by destruct (model _). Qed.

Lemma preserves_parameters : preserves_self parameters.
Proof. done. Qed.

Lemma preserves_if {A} (b : bool) (m1 m2 : M A) :
  preserves_self m1 → preserves_self m2 → preserves_self (if b then m1 else m2).
Proof. by destruct b. Qed.

Create HintDb frame.
#[local] Hint Resolve preserves_ret preserves_raise preserves_emit
  preserves_call_library preserves_subscript preserves_get_model
  preserves_parameters : frame.

Ltac frame :=
  repeat first
    [ apply preserves_bind; [|intros ?]
    | apply preserves_if
    | solve [auto with frame]
    | match goal with |- preserves_self (match ?o with _ => _ end) => destruct o end ].

Lemma forward_preserves x : preserves_self (forward x).
Proof. unfold forward. frame. Qed.

Lemma training_step_preserves batch batch_idx :
  preserves_self (training_step batch batch_idx).
Proof. unfold training_step. frame. Qed.

Lemma validation_step_preserves batch batch_idx :
  preserves_self (validation_step batch batch_idx).
Proof. unfold validation_step. frame. Qed.

Lemma configure_optimizers_preserves : preserves_self configure_optimizers.
Proof. unfold configure_optimizers. frame. Qed.

Lemma call_hook_self h st : self (call_hook h st) = self st.
Proof.
  destruct h; cbn.
  - apply forward_preserves.
  - apply training_step_preserves.
  - apply validation_step_preserves.
  - apply configure_optimizers_preserves.
Qed.

Lemma call_hooks_self hs st : self (call_hooks hs st) = self st.
Proof.
  revert st. induction hs as [|h hs IH]; intros st; [done|].
  change (call_hooks (h :: hs) st) with (call_hooks hs (call_hook h st)).
  rewrite IH. apply call_hook_self.
Qed.

(** ** Construction *)

(** The factory has the five tags and reaches the five classes. *)
Lemma LM_MODULE_FACTORY_tags :
  dom LM_MODULE_FACTORY = ({["lm"; "mlm"; "clm"; "cgm"; "plm"]} : gset string).
Proof. unfold LM_MODULE_FACTORY. rewrite !dom_insert_L, dom_empty_L. set_solver. Qed.

Lemma LM_MODULE_FACTORY_classes cls :
  ∃ tag, LM_MODULE_FACTORY !! tag = Some cls.
Proof.
  destruct cls;
    [exists "lm"|exists "mlm"|exists "cgm"|exists "clm"|exists "plm"]; reflexivity.
Qed.

Lemma bind_assoc_at {A B C} (m : M A) (k : A → M B) (k' : B → M C) st :
  ((m ≫= k) ≫= k') st = (m ≫= λ a, k a ≫= k') st.
Proof.
  unfold mbind, M_bind. by destruct (m st) as [st' [a|e]].
Qed.

(** Each [init_model] is the network block, followed for the four
    subclasses by the tokenizer block. *)
Lemma init_model_blocks cls st :
  init_model cls st =
    (if has_tokenizer cls
     then load_network (auto_class cls) ≫= λ _,
          attach_tokenizer (class_tokenizer_kwargs cls)
     else load_network (auto_class cls)) st.
Proof.
  destruct cls; cbn [has_tokenizer auto_class class_tokenizer_kwargs init_model];
    [reflexivity|..]; symmetry; apply bind_assoc_at.
Qed.

Lemma construction_init_model cls args t :
  LMModule__init__ cls args t =
    match init_model cls {| self := prepared args; events := t |} with
    | (st, Returned _) => (events st, Returned (self st))
    | (st, Raised e) => (events st, Raised e)
    end.
Proof.
  unfold LMModule__init__. step.
  unfold prepared, BaseLightningModule__init__, with_cache_dir.
  cbn [self events model_args cache_dir model tokenizer].
  destruct (args !! "cache_dir") as [v|]; by step.
Qed.

(** The network block, case by case. *)
Lemma load_network_cases auto s t cache :
  cache_dir s = Some cache →
  load_network auto {| self := s; events := t |} =
    match model_args s !! "model_name_or_path" with
    | None => ({| self := s; events := t |}, Raised (KeyError "model_name_or_path"))
    | Some PyNone =>
      match model_args s !! "model_config_name" with
      | None => ({| self := s; events := t |}, Raised (KeyError "model_config_name"))
      | Some cfg_name =>
        match AutoConfig_from_pretrained cfg_name cache with
        | Raises d =>
          ({| self := s; events := t ++ [Call_AutoConfig_from_pretrained cfg_name cache] |},
           Raised (Raised_by_library d))
        | Returns cfg =>
          match from_config auto cfg with
          | Raises d =>
            ({| self := s;
                events := t ++ [Call_AutoConfig_from_pretrained cfg_name cache;
                                Call_from_config auto cfg] |},
             Raised (Raised_by_library d))
          | Returns net =>
            ({| self := with_model net s;
                events := t ++ [Call_AutoConfig_from_pretrained cfg_name cache;
                                Call_from_config auto cfg;
                                Logger_info "Training from scratch"] |},
             Returned ())
          end
        end
      end
    | Some name =>
      match from_pretrained auto name cache with
      | Raises d =>
        ({| self := s; events := t ++ [Call_from_pretrained auto name cache] |},
         Raised (Raised_by_library d))
      | Returns net =>
        ({| self := with_model net s;
            events := t ++ [Call_from_pretrained auto name cache] |},
         Returned ())
      end
    end.
Proof.
  intros Hcache. unfold load_network.
  destruct (model_args s !! "model_name_or_path") as [name|] eqn:Hname; step; [|done].
  assert (Hpre : is_not_None name = true →
    (name ← subscript_model_args "model_name_or_path";
     cache ← get_cache_dir;
     net ← call_library (Call_from_pretrained auto name cache)
                        (from_pretrained auto name cache);
     set_model net) {| self := s; events := t |} =
    match from_pretrained auto name cache with
    | Raises d =>
      ({| self := s; events := t ++ [Call_from_pretrained auto name cache] |},
       Raised (Raised_by_library d))
    | Returns net =>
      ({| self := with_model net s;
          events := t ++ [Call_from_pretrained auto name cache] |},
       Returned ())
    end).
  { intros _. do 2 step.
    by destruct (from_pretrained auto name cache) as [net|d] eqn:Hload; step. }
  destruct name; try (apply Hpre; reflexivity). clear Hpre.
  cbn [is_not_None].
  destruct (model_args s !! "model_config_name") as [cfg_name|] eqn:Hcfg; step; [|done].
  step.
  destruct (AutoConfig_from_pretrained cfg_name cache) as [cfg|d] eqn:Hconf; step; [|done].
  destruct (from_config auto cfg) as [net|d] eqn:Hnet; step.
  - step. unfold emit. cbn [self events]. by rewrite <- !app_assoc.
  - by rewrite <- app_assoc.
Qed.

(** The tokenizer block, case by case, once a network is there. *)
Lemma attach_tokenizer_cases kwargs s t net :
  model s = Some net →
  attach_tokenizer kwargs {| self := s; events := t |} =
    match model_args s !! "tokenizer" with
    | None => ({| self := s; events := t |}, Raised (KeyError "tokenizer"))
    | Some tok_name =>
      match AutoTokenizer_from_pretrained tok_name kwargs with
      | Raises d =>
        ({| self := s;
            events := t ++ [Call_AutoTokenizer_from_pretrained tok_name kwargs] |},
         Raised (Raised_by_library d))
      | Returns tok =>
        match resize_token_embeddings net (tokenizer_len tok) with
        | Raises d =>
          ({| self := with_tokenizer tok s;
              events := t ++ [Call_AutoTokenizer_from_pretrained tok_name kwargs;
                              Call_resize_token_embeddings net (tokenizer_len tok)] |},
           Raised (Raised_by_library d))
        | Returns net' =>
          ({| self := with_model net' (with_tokenizer tok s);
              events := t ++ [Call_AutoTokenizer_from_pretrained tok_name kwargs;
                              Call_resize_token_embeddings net (tokenizer_len tok)] |},
           Returned ())
        end
      end
    end.
Proof.
  intros Hnet. unfold attach_tokenizer.
  destruct (model_args s !! "tokenizer") as [tok_name|] eqn:Htok; step; [|done].
  destruct (AutoTokenizer_from_pretrained tok_name kwargs) as [tok|d] eqn:Hload;
    step; [|done].
  step. unfold with_tokenizer at 1. step.
  erewrite (bind_returned get_tokenizer) by reflexivity.
  destruct (resize_token_embeddings net (tokenizer_len tok)) as [net'|d] eqn:Hres; step;
    cbn [self events]; by rewrite <- app_assoc.
Qed.

Lemma load_network_returned auto args t st' :
  load_network auto {| self := prepared args; events := t |} = (st', Returned ()) →
  ∃ net calls,
    loaded_by auto args (default PyNone (args !! "cache_dir")) net calls
    ∧ st' = {| self := with_model net (prepared args); events := t ++ calls |}.
Proof.
  rewrite (load_network_cases auto _ t (default PyNone (args !! "cache_dir")))
    by reflexivity.
  cbn [prepared model_args].
  destruct (args !! "model_name_or_path") as [name|] eqn:Hname; [|done].
  assert (Hpre : name ≠ PyNone →
    match from_pretrained auto name (default PyNone (args !! "cache_dir")) with
    | Returns net =>
      ({| self := with_model net (prepared args);
          events := t ++ [Call_from_pretrained auto name
                            (default PyNone (args !! "cache_dir"))] |},
       Returned ())
    | Raises d =>
      ({| self := prepared args;
          events := t ++ [Call_from_pretrained auto name
                            (default PyNone (args !! "cache_dir"))] |},
       Raised (Raised_by_library d))
    end = (st', Returned ()) →
    ∃ net calls,
      loaded_by auto args (default PyNone (args !! "cache_dir")) net calls
      ∧ st' = {| self := with_model net (prepared args); events := t ++ calls |}).
  { intros Hnone.
    destruct (from_pretrained auto name _) as [net|d] eqn:Hload; [|done].
    intros [= <-]. exists net, [Call_from_pretrained auto name
                                  (default PyNone (args !! "cache_dir"))].
    split; [|done]. left. by exists name. }
  destruct name; try (by apply Hpre). clear Hpre.
  destruct (args !! "model_config_name") as [cfg_name|] eqn:Hcfg; [|done].
  destruct (AutoConfig_from_pretrained cfg_name _) as [cfg|d] eqn:Hconf; [|done].
  destruct (from_config auto cfg) as [net|d] eqn:Hnet; [|done].
  intros [= <-]. eexists net, _. split; [|done].
  right. by exists cfg_name, cfg.
Qed.

(** What a successful construction has done. *)
Lemma construction_returned cls args t t' obj :
  LMModule__init__ cls args t = (t', Returned obj) →
  ∃ net calls,
    loaded_by (auto_class cls) args (default PyNone (args !! "cache_dir")) net calls
    ∧ if has_tokenizer cls then
        ∃ tok_name tok net',
          args !! "tokenizer" = Some tok_name
          ∧ AutoTokenizer_from_pretrained tok_name (class_tokenizer_kwargs cls) = Returns tok
          ∧ resize_token_embeddings net (tokenizer_len tok) = Returns net'
          ∧ obj = with_model net' (with_tokenizer tok (with_model net (prepared args)))
          ∧ t' = t ++ calls ++
                 [Call_AutoTokenizer_from_pretrained tok_name (class_tokenizer_kwargs cls);
                  Call_resize_token_embeddings net (tokenizer_len tok)]
      else obj = with_model net (prepared args) ∧ t' = t ++ calls.
Proof.
  rewrite construction_init_model, init_model_blocks. intros Hinit.
  destruct (load_network (auto_class cls) {| self := prepared args; events := t |})
    as [st1 [[]|e]] eqn:Hload.
  2: { destruct (has_tokenizer cls); cbv iota in Hinit.
       - by erewrite bind_raised in Hinit by exact Hload.
       - by rewrite Hload in Hinit. }
  destruct (load_network_returned _ _ _ _ Hload) as (net & calls & Hby & ->).
  exists net, calls. split; [done|].
  destruct (has_tokenizer cls); cbv iota in Hinit.
  - erewrite bind_returned in Hinit by exact Hload.
    rewrite (attach_tokenizer_cases _ _ _ net) in Hinit by reflexivity.
    cbn [with_model prepared model_args] in Hinit.
    destruct (args !! "tokenizer") as [tok_name|]; [|done].
    destruct (AutoTokenizer_from_pretrained tok_name _) as [tok|d] eqn:Htok; [|done].
    destruct (resize_token_embeddings net _) as [net'|d] eqn:Hres; [|done].
    injection Hinit as <- <-. exists tok_name, tok, net'.
    by rewrite <- app_assoc.
  - rewrite Hload in Hinit. by injection Hinit as <- <-.
Qed.

(** What construction does once the network block has returned. *)
Lemma construction_after_load cls args t calls net :
  load_network (auto_class cls) {| self := prepared args; events := t |} =
    ({| self := with_model net (prepared args); events := t ++ calls |}, Returned ()) →
  ∃ rest,
    (LMModule__init__ cls args t).1 = t ++ calls ++ rest
    ∧ Forall (follows_load net) rest
    ∧ ∀ obj, (LMModule__init__ cls args t).2 = Returned obj →
        ∃ net', model obj = Some net'
          ∧ (net' = net ∨ ∃ n, resize_token_embeddings net n = Returns net').
Proof.
  intros Hload. rewrite construction_init_model, init_model_blocks.
  destruct (has_tokenizer cls); cbv iota.
  - erewrite bind_returned by exact Hload.
    rewrite (attach_tokenizer_cases _ _ _ net) by reflexivity.
    cbn [with_model prepared model_args].
    destruct (args !! "tokenizer") as [tok_name|].
    2: { exists []. cbn. by rewrite !app_nil_r. }
    destruct (AutoTokenizer_from_pretrained tok_name _) as [tok|d] eqn:Htok.
    2: { eexists [_]. cbn. rewrite <- app_assoc. repeat split; [|done].
         by repeat constructor. }
    destruct (resize_token_embeddings net _) as [net'|d] eqn:Hres.
    + eexists [_; _]. cbn. rewrite <- app_assoc. repeat split.
      * by repeat constructor.
      * intros obj [= <-]. exists net'. split; [done|]. right. eauto.
    + eexists [_; _]. cbn. rewrite <- app_assoc. repeat split; [|done].
      by repeat constructor.
  - rewrite Hload. exists []. cbn. rewrite !app_nil_r. repeat split; [done|].
    intros obj [= <-]. exists net. by split; [|left].
Qed.

(** X20. Construction of every class looks at [model_name_or_path] first.
    When it is not [None] and the hub returns a network for it, the first
    call made is [from_pretrained] of the class's loader on that name with
    the cache directory ([model_args["cache_dir"]] when the key is there,
    [None] otherwise).  When it is [None], and the configuration load and
    [from_config] of the class's loader return, the configuration is loaded
    by [model_config_name] with the same cache directory, the network is
    built from that configuration, and ["Training from scratch"] is logged,
    in that order.  In both cases nothing else builds a network afterwards:
    what follows only loads the tokenizer and resizes that network, and the
    network a successful construction ends with is that network, resized or
    not.  (For the permutation-LM class the second case does not arise on a
    hub where [concrete_class_lacks_from_config] holds.) *)
Theorem construction_dispatch cls args t :
  let cache := default PyNone (args !! "cache_dir") in
  let auto := auto_class cls in
  let r := LMModule__init__ cls args t in
  (∀ name net,
     args !! "model_name_or_path" = Some name → name ≠ PyNone →
     from_pretrained auto name cache = Returns net →
     ∃ rest,
       r.1 = t ++ [Call_from_pretrained auto name cache] ++ rest
       ∧ Forall (follows_load net) rest
       ∧ ∀ obj, r.2 = Returned obj →
           ∃ net', model obj = Some net'
             ∧ (net' = net ∨ ∃ n, resize_token_embeddings net n = Returns net'))
  ∧ (∀ cfg_name cfg net,
     args !! "model_name_or_path" = Some PyNone →
     args !! "model_config_name" = Some cfg_name →
     AutoConfig_from_pretrained cfg_name cache = Returns cfg →
     from_config auto cfg = Returns net →
     ∃ rest,
       r.1 = t ++ [Call_AutoConfig_from_pretrained cfg_name cache;
                   Call_from_config auto cfg;
                   Logger_info "Training from scratch"] ++ rest
       ∧ Forall (follows_load net) rest
       ∧ ∀ obj, r.2 = Returned obj →
           ∃ net', model obj = Some net'
             ∧ (net' = net ∨ ∃ n, resize_token_embeddings net n = Returns net')).
Proof.
  intros cache auto r. subst r auto. split.
  - intros name net Hname Hnone Hload.
    apply construction_after_load.
    rewrite (load_network_cases _ _ t cache) by reflexivity.
    cbn [prepared model_args]. rewrite Hname, Hload.
    by destruct name.
  - intros cfg_name cfg net Hname Hcfg Hconf Hnet.
    apply construction_after_load.
    rewrite (load_network_cases _ _ t cache) by reflexivity.
    cbn [prepared model_args]. by rewrite Hname, Hcfg, Hconf, Hnet.
Qed.

(** C8. With [model_name_or_path] equal to [None], construction of every
    class raises when [model_config_name] is missing from the mapping
    ([KeyError], no call made) and when the hub cannot resolve it (the
    hub's exception, after that one call); no module is returned. *)
Theorem construction_fails_without_config cls args t :
  args !! "model_name_or_path" = Some PyNone →
  let cache := default PyNone (args !! "cache_dir") in
  (args !! "model_config_name" = None →
     LMModule__init__ cls args t = (t, Raised (KeyError "model_config_name")))
  ∧ (∀ cfg_name d,
       args !! "model_config_name" = Some cfg_name →
       AutoConfig_from_pretrained cfg_name cache = Raises d →
       LMModule__init__ cls args t =
         (t ++ [Call_AutoConfig_from_pretrained cfg_name cache],
          Raised (Raised_by_library d))).
Proof.
  intros Hname cache.
  assert (Hraise : ∀ s' t' e,
    load_network (auto_class cls) {| self := prepared args; events := t |} =
      ({| self := s'; events := t' |}, Raised e) →
    LMModule__init__ cls args t = (t', Raised e)).
  { intros s' t' e Hload. rewrite construction_init_model, init_model_blocks.
    destruct (has_tokenizer cls); cbv iota.
    - by erewrite bind_raised by exact Hload.
    - by rewrite Hload. }
  split.
  - intros Hcfg. apply (Hraise (prepared args)).
    rewrite (load_network_cases _ _ t cache) by reflexivity.
    cbn [prepared model_args]. by rewrite Hname, Hcfg.
  - intros cfg_name d Hcfg Hconf. apply (Hraise (prepared args)).
    rewrite (load_network_cases _ _ t cache) by reflexivity.
    cbn [prepared model_args]. by rewrite Hname, Hcfg, Hconf.
Qed.

(** C2. For the four classes with a tokenizer, a constructed module has a
    tokenizer, the only one that was loaded, and its network is what
    [resize_token_embeddings] returned for [len(tokenizer)], the last call
    of the construction; so, a resize giving the tables the number of rows
    it is asked for, the tables have [len(tokenizer)] rows. *)
Theorem tokenizer_sizes_embeddings cls args t t' obj :
  (∀ net n net',
     resize_token_embeddings net n = Returns net' → embedding_rows net' = n) →
  has_tokenizer cls = true →
  LMModule__init__ cls args t = (t', Returned obj) →
  ∃ tok net net0 new,
    tokenizer obj = Some tok
    ∧ model obj = Some net
    ∧ resize_token_embeddings net0 (tokenizer_len tok) = Returns net
    ∧ embedding_rows net = tokenizer_len tok
    ∧ t' = t ++ new
    ∧ last new = Some (Call_resize_token_embeddings net0 (tokenizer_len tok))
    ∧ length (List.filter is_tokenizer_load new) = 1%nat.
Proof.
  intros Hresize Hcls Hinit.
  destruct (construction_returned _ _ _ _ _ Hinit) as (net0 & calls & Hby & Hrest).
  rewrite Hcls in Hrest.
  destruct Hrest as (tok_name & tok & net & Hname & Htok & Hres & -> & ->).
  exists tok, net, net0. eexists. repeat split; [done|eauto|..].
  - by rewrite last_app.
  - rewrite List.filter_app.
    by destruct Hby as [(name & _ & _ & _ & ->)|(cfg_name & cfg & _ & _ & _ & _ & ->)].
Qed.

(** C5. A constructed causal-LM module holds the tokenizer the hub returned
    for [model_args["tokenizer"]] loaded with [sep_token="<|sep|>"] and
    [pad_token="<|pad|>"]; that load is followed by the resize to
    [len(tokenizer)], which is the last call and the only resize; so, a
    loader setting the special tokens it is given, the tokenizer has both,
    whatever tokenizer the name stands for. *)
Theorem clm_special_tokens args t t' obj :
  (∀ name kwargs tok tk,
     AutoTokenizer_from_pretrained name kwargs = Returns tok →
     kwargs !! "sep_token" = Some (PyStr tk) → sep_token tok = Some tk) →
  (∀ name kwargs tok tk,
     AutoTokenizer_from_pretrained name kwargs = Returns tok →
     kwargs !! "pad_token" = Some (PyStr tk) → pad_token tok = Some tk) →
  LMModule__init__ CLMModule args t = (t', Returned obj) →
  ∃ tok tok_name net0 before,
    tokenizer obj = Some tok
    ∧ sep_token tok = Some "<|sep|>"
    ∧ pad_token tok = Some "<|pad|>"
    ∧ args !! "tokenizer" = Some tok_name
    ∧ AutoTokenizer_from_pretrained tok_name CLM_tokenizer_kwargs = Returns tok
    ∧ CLM_tokenizer_kwargs !! "sep_token" = Some (PyStr "<|sep|>")
    ∧ CLM_tokenizer_kwargs !! "pad_token" = Some (PyStr "<|pad|>")
    ∧ t' = t ++ before ++
           [Call_AutoTokenizer_from_pretrained tok_name CLM_tokenizer_kwargs;
            Call_resize_token_embeddings net0 (tokenizer_len tok)]
    ∧ Forall (λ ev, is_resize ev = false) before.
Proof.
  intros Hsep Hpad Hinit.
  destruct (construction_returned _ _ _ _ _ Hinit) as (net0 & calls & Hby & Hrest).
  cbn [has_tokenizer class_tokenizer_kwargs] in Hrest.
  destruct Hrest as (tok_name & tok & net & Hname & Htok & Hres & -> & ->).
  assert (Hs : CLM_tokenizer_kwargs !! "sep_token" = Some (PyStr "<|sep|>"))
    by (unfold CLM_tokenizer_kwargs; by simplify_map_eq).
  assert (Hp : CLM_tokenizer_kwargs !! "pad_token" = Some (PyStr "<|pad|>"))
    by (unfold CLM_tokenizer_kwargs; by simplify_map_eq).
  exists tok, tok_name, net0, calls. repeat split; eauto.
  destruct Hby as [(name & _ & _ & _ & ->)|(cfg_name & cfg & _ & _ & _ & _ & ->)];
    by repeat constructor.
Qed.

(** C9. None of the four hooks writes to the module: after [forward],
    [training_step], [validation_step] or [configure_optimizers], and after
    any sequence of them, [model_args] is what it was; for a module that
    was constructed from a mapping, it is still that mapping. *)
Theorem model_args_not_mutated s t :
  let st := {| self := s; events := t |} in
  (∀ x, model_args (self (forward x st).1) = model_args s)
  ∧ (∀ batch batch_idx,
       model_args (self (training_step batch batch_idx st).1) = model_args s)
  ∧ (∀ batch batch_idx,
       model_args (self (validation_step batch batch_idx st).1) = model_args s)
  ∧ model_args (self (configure_optimizers st).1) = model_args s
  ∧ (∀ hs, model_args (self (call_hooks hs st)) = model_args s)
  ∧ (∀ cls args t0 hs,
       LMModule__init__ cls args t0 = (t, Returned s) →
       model_args (self (call_hooks hs st)) = args).
Proof.
  intros st. repeat split.
  - intros x. by rewrite forward_preserves.
  - intros batch batch_idx. by rewrite training_step_preserves.
  - intros batch batch_idx. by rewrite validation_step_preserves.
  - by rewrite configure_optimizers_preserves.
  - intros hs. by rewrite call_hooks_self.
  - intros cls args t0 hs Hinit. rewrite call_hooks_self. subst st. cbn [self].
    destruct (construction_returned _ _ _ _ _ Hinit) as (net & calls & _ & Hrest).
    destruct (has_tokenizer cls).
    + by destruct Hrest as (? & ? & ? & _ & _ & _ & -> & _).
    + by destruct Hrest as [-> _].
Qed.

(** * More on the same code *)

(** ** Traces *)

Lemma emits_only_ret P {A} (a : A) : emits_only P (mret a).
Proof. intros st. exists []. by rewrite app_nil_r. Qed.

Lemma emits_only_raise P {A} e : emits_only P (raise (A:=A) e).
Proof. intros st. exists []. by rewrite app_nil_r. Qed.

Lemma emits_only_bind P {A B} (m : M A) (k : A → M B) :
  emits_only P m → (∀ a, emits_only P (k a)) → emits_only P (m ≫= k).
Proof.
  intros Hm Hk st. destruct (Hm st) as (new1 & E1 & F1).
  unfold mbind, M_bind. destruct (m st) as [st' [a|e]]; cbn in *.
  - destruct (Hk a st') as (new2 & E2 & F2). exists (new1 ++ new2).
    split; [by rewrite E2, E1, app_assoc|by apply Forall_app].
  - by exists new1.
Qed.

Lemma emits_only_emit (P : event → Prop) ev : P ev → emits_only P (emit ev).
Proof. intros HP st. exists [ev]. split; [done|by constructor]. Qed.

Lemma emits_only_call_library (P : event → Prop) {A} ev (r : response A) :
  P ev → emits_only P (call_library ev r).
Proof. intros HP st. exists [ev]. split; [by destruct r|by constructor]. Qed.

Lemma emits_only_subscript P key : emits_only P (subscript_model_args key).
Proof.
  intros st. exists []. unfold subscript_model_args.
  destruct (_ !! _); by rewrite app_nil_r.
Qed.

Lemma emits_only_get_model P : emits_only P get_model.
Proof.
  intros st. exists []. unfold get_model. destruct (model _); by rewrite app_nil_r.
Qed.

Lemma emits_only_get_cache_dir P : emits_only P get_cache_dir.
Proof.
  intros st. exists []. unfold get_cache_dir.
  destruct (cache_dir _); by rewrite app_nil_r.
Qed.

Lemma emits_only_get_tokenizer P : emits_only P get_tokenizer.
Proof.
  intros st. exists []. unfold get_tokenizer.
  destruct (tokenizer _); by rewrite app_nil_r.
Qed.

Lemma emits_only_set_model P net : emits_only P (set_model net).
Proof. intros st. exists []. by rewrite app_nil_r. Qed.

Lemma emits_only_set_tokenizer P tok : emits_only P (set_tokenizer tok).
Proof. intros st. exists []. by rewrite app_nil_r. Qed.

Lemma emits_only_set_cache_dir P v : emits_only P (set_cache_dir v).
Proof. intros st. exists []. by rewrite app_nil_r. Qed.

Lemma emits_only_parameters P : emits_only P parameters.
Proof. intros st. exists []. by rewrite app_nil_r. Qed.

Lemma emits_only_if P {A} (b : bool) (m1 m2 : M A) :
  emits_only P m1 → emits_only P m2 → emits_only P (if b then m1 else m2).
Proof. by destruct b. Qed.

Create HintDb trace.
#[local] Hint Resolve emits_only_ret emits_only_raise emits_only_subscript
  emits_only_get_model emits_only_get_cache_dir emits_only_get_tokenizer
  emits_only_set_model emits_only_set_tokenizer emits_only_set_cache_dir
  emits_only_parameters : trace.

Ltac trace :=
  repeat first
    [ apply emits_only_bind; [|intros ?]
    | apply emits_only_if
    | apply emits_only_call_library; cbn; solve [auto]
    | apply emits_only_emit; cbn; solve [auto]
    | solve [auto with trace]
    | match goal with |- emits_only _ (match ?o with _ => _ end) => destruct o end ].

Lemma init_model_emits cls : emits_only (construction_event cls) (init_model cls).
Proof.
  destruct cls; cbn [init_model];
    [unfold LMModule_init_model|unfold MLMModule_init_model
    |unfold CGMModule_init_model|unfold CLMModule_init_model
    |unfold PLMModule_init_model]; trace.
Qed.

Lemma construction_emits cls args t :
  ∃ new,
    (LMModule__init__ cls args t).1 = t ++ new
    ∧ Forall (construction_event cls) new.
Proof.
  unfold LMModule__init__. cbv zeta.
  match goal with
  | |- context [match ?b {| self := ?s0; events := ?t0 |} with _ => _ end] =>
    assert (Hb : emits_only (construction_event cls) b)
  end.
  { apply emits_only_bind; [auto with trace|intros _].
    apply emits_only_bind; [|intros _; apply init_model_emits].
    destruct (args !! "cache_dir"); auto with trace. }
  destruct (Hb {| self := BaseLightningModule__init__ args; events := t |})
    as (new & E & F).
  exists new. split; [|done]. cbn [events] in E. rewrite <- E.
  match goal with |- (match ?x with _ => _ end).1 = _ =>
    by destruct x as [st [[]|e]] end.
Qed.

Lemma forward_emits x : emits_only hook_event (forward x).
Proof. unfold forward. trace. Qed.

Lemma training_step_emits batch batch_idx :
  emits_only hook_event (training_step batch batch_idx).
Proof. unfold training_step. trace. Qed.

Lemma validation_step_emits batch batch_idx :
  emits_only hook_event (validation_step batch batch_idx).
Proof. unfold validation_step. trace. Qed.

Lemma configure_optimizers_emits : emits_only hook_event configure_optimizers.
Proof. unfold configure_optimizers. trace. Qed.

Lemma call_hook_emits h st :
  ∃ new, events (call_hook h st) = events st ++ new ∧ Forall hook_event new.
Proof.
  destruct h; cbn.
  - apply forward_emits.
  - apply training_step_emits.
  - apply validation_step_emits.
  - apply configure_optimizers_emits.
Qed.

Lemma call_hooks_emits hs st :
  ∃ new,
    events (call_hooks hs st) = events st ++ new
    ∧ Forall hook_event new.
Proof.
  revert st. induction hs as [|h hs IH]; intros st.
  - exists []. by rewrite app_nil_r.
  - change (call_hooks (h :: hs) st) with (call_hooks hs (call_hook h st)).
    destruct (IH (call_hook h st)) as (new2 & E2 & F2).
    destruct (call_hook_emits h st) as (new1 & E1 & F1).
    exists (new1 ++ new2). split; [by rewrite E2, E1, app_assoc|by apply Forall_app].
Qed.

(** X3. Construction only appends to the trace, and what it appends are
    hub-loader calls of the class's own loader class, at most the tokenizer
    load with the class's keyword arguments and the resize (for a class
    with a tokenizer only), and the log line; whatever the outcome, the
    network is not called, no optimizer or scheduler is built and no metric
    is logged. *)
Theorem construction_trace cls args t :
  ∃ new,
    (LMModule__init__ cls args t).1 = t ++ new
    ∧ Forall (construction_event cls) new.
Proof. apply construction_emits. Qed.

(** X5. Any sequence of the four hooks only appends to the trace, and what
    it appends are calls of the network, metric logs under ["train_loss"]
    or ["val_loss"], AdamW constructions and StepLR constructions with step
    size 1: after construction nothing is loaded from the hub again, the
    embedding tables are not resized again, and nothing goes to the module
    logger. *)
Theorem hooks_trace hs st :
  ∃ new,
    events (call_hooks hs st) = events st ++ new
    ∧ Forall hook_event new.
Proof. apply call_hooks_emits. Qed.

(** X4. Every tokenizer load a construction makes forces the slow tokenizer
    ([use_fast=False]) and is not given the cache directory, which goes to
    the network and configuration loaders only; [sep_token] and [pad_token]
    are passed by the causal-LM class and by no other. *)
Theorem tokenizer_load_kwargs cls args t :
  ∃ new,
    (LMModule__init__ cls args t).1 = t ++ new
    ∧ ∀ name kwargs,
        Call_AutoTokenizer_from_pretrained name kwargs ∈ new →
        kwargs !! "use_fast" = Some (PyBool false)
        ∧ kwargs !! "cache_dir" = None
        ∧ (cls = CLMModule →
             kwargs !! "sep_token" = Some (PyStr "<|sep|>")
             ∧ kwargs !! "pad_token" = Some (PyStr "<|pad|>"))
        ∧ (cls ≠ CLMModule →
             kwargs !! "sep_token" = None ∧ kwargs !! "pad_token" = None).
Proof.
  destruct (construction_emits cls args t) as (new & E & F).
  exists new. split; [done|]. intros name kwargs Hin.
  rewrite Forall_forall in F. destruct (F _ Hin) as [Hcls ->].
  destruct cls; try discriminate Hcls; cbn [class_tokenizer_kwargs];
    unfold tokenizer_kwargs, CLM_tokenizer_kwargs;
    repeat split;
    first [ by simplify_map_eq
          | intros H; first [discriminate H | by destruct H
                            | split; by simplify_map_eq] ].
Qed.

(** X7. The plain class has no tokenizer: its construction never loads one
    and never resizes the embedding tables, and the module it returns has
    [tokenizer] unassigned. *)
Theorem lm_module_has_no_tokenizer args t :
  ∃ new,
    (LMModule__init__ LMModule args t).1 = t ++ new
    ∧ Forall (λ ev, is_tokenizer_load ev = false ∧ is_resize ev = false) new
    ∧ ∀ obj, (LMModule__init__ LMModule args t).2 = Returned obj →
        tokenizer obj = None.
Proof.
  destruct (construction_emits LMModule args t) as (new & E & F).
  exists new. split; [done|]. split.
  - eapply Forall_impl; [exact F|]. by intros [] H; cbn in *; try destruct H.
  - intros obj Hobj.
    destruct (LMModule__init__ LMModule args t) as [t' o] eqn:Hinit.
    cbn in Hobj. subst o.
    destruct (construction_returned _ _ _ _ _ Hinit) as (net & calls & _ & Hrest).
    cbn [has_tokenizer] in Hrest. by destruct Hrest as [-> _].
Qed.

(** ** Construction, case by case *)

Lemma construction_two_blocks cls args t :
  LMModule__init__ cls args t =
    match load_network (auto_class cls) {| self := prepared args; events := t |} with
    | (st1, Raised e) => (events st1, Raised e)
    | (st1, Returned _) =>
      if has_tokenizer cls then
        match attach_tokenizer (class_tokenizer_kwargs cls) st1 with
        | (st2, Returned _) => (events st2, Returned (self st2))
        | (st2, Raised e) => (events st2, Raised e)
        end
      else (events st1, Returned (self st1))
    end.
Proof.
  rewrite construction_init_model, init_model_blocks.
  destruct (has_tokenizer cls); cbv iota; [unfold mbind, M_bind|];
    by destruct (load_network _ _) as [st1 [[]|e]].
Qed.

Lemma load_network_loaded auto args t net calls :
  loaded_by auto args (default PyNone (args !! "cache_dir")) net calls →
  load_network auto {| self := prepared args; events := t |} =
    ({| self := with_model net (prepared args); events := t ++ calls |}, Returned ()).
Proof.
  intros Hby.
  rewrite (load_network_cases _ _ t (default PyNone (args !! "cache_dir")))
    by reflexivity.
  cbn [prepared model_args].
  destruct Hby as [(name & -> & Hnone & -> & ->)
                  |(cfg_name & cfg & -> & -> & -> & -> & ->)]; [|done].
  by destruct name.
Qed.

(** Unfold a construction into its cases. *)
Ltac construction_cases :=
  rewrite !construction_two_blocks;
  rewrite !(load_network_cases _ (prepared _) _
             (default PyNone ((_ : gmap string py_value) !! "cache_dir")))
    by reflexivity;
  cbn [prepared model_args];
  repeat first
    [ erewrite attach_tokenizer_cases by reflexivity
    | progress cbn [fst snd self events model_args with_model with_tokenizer prepared]
    | match goal with
      | H : ?x = _ |- context [match ?x with _ => _ end] => rewrite H
      end
    | match goal with
      | |- context [match ?x with _ => _ end] =>
        lazymatch x with
        | attach_tokenizer _ _ => fail
        | context [match _ with _ => _ end] => fail
        | _ => destruct x eqn:?
        end
      end ].

(** X10. ["Training from scratch"] is logged exactly when the network was
    built fresh: [model_name_or_path] is [None], the configuration named by
    [model_config_name] was loaded and [from_config] returned.  It is not
    logged when pretrained weights are loaded, nor when building the fresh
    network failed. *)
Theorem scratch_logged_iff cls args t :
  ∃ new,
    (LMModule__init__ cls args t).1 = t ++ new
    ∧ (Logger_info "Training from scratch" ∈ new ↔
       ∃ cfg_name cfg net,
         args !! "model_name_or_path" = Some PyNone
         ∧ args !! "model_config_name" = Some cfg_name
         ∧ AutoConfig_from_pretrained cfg_name (default PyNone (args !! "cache_dir"))
             = Returns cfg
         ∧ from_config (auto_class cls) cfg = Returns net).
Proof.
  construction_cases;
    (rewrite <- ?app_assoc; eexists; split;
      [ first [ reflexivity | symmetry; apply app_nil_r ] | ]);
    (split;
      [ intros Hin;
        repeat (apply elem_of_cons in Hin as [Hin|Hin]; [try discriminate Hin|]);
        try (by apply elem_of_nil in Hin); eauto 10
      | intros (?&?&?&?&?&?&?); simplify_eq;
        first [ congruence | by repeat constructor ] ]).
Qed.

(** X1. When construction returns a module, and only then: a network was
    built (from the pretrained name, or fresh from the named configuration),
    and for a class with a tokenizer the mapping has a [tokenizer] entry,
    the hub returned a tokenizer for it and the resize returned.  The module
    and the trace are then fully determined. *)
Theorem construction_succeeds_iff cls args t t' obj :
  LMModule__init__ cls args t = (t', Returned obj) ↔
  ∃ net calls,
    loaded_by (auto_class cls) args (default PyNone (args !! "cache_dir")) net calls
    ∧ if has_tokenizer cls then
        ∃ tok_name tok net',
          args !! "tokenizer" = Some tok_name
          ∧ AutoTokenizer_from_pretrained tok_name (class_tokenizer_kwargs cls) = Returns tok
          ∧ resize_token_embeddings net (tokenizer_len tok) = Returns net'
          ∧ obj = with_model net' (with_tokenizer tok (with_model net (prepared args)))
          ∧ t' = t ++ calls ++
                 [Call_AutoTokenizer_from_pretrained tok_name (class_tokenizer_kwargs cls);
                  Call_resize_token_embeddings net (tokenizer_len tok)]
      else obj = with_model net (prepared args) ∧ t' = t ++ calls.
Proof.
  split; [apply construction_returned|].
  intros (net & calls & Hby & Hrest).
  rewrite construction_two_blocks, (load_network_loaded _ _ _ _ _ Hby).
  destruct (has_tokenizer cls).
  - destruct Hrest as (tok_name & tok & net' & Hname & Htok & Hres & -> & ->).
    erewrite attach_tokenizer_cases by reflexivity.
    cbn [with_model prepared model_args]. rewrite Hname, Htok, Hres.
    cbn [self events]. by rewrite <- app_assoc.
  - by destruct Hrest as [-> ->].
Qed.

(** X2. Construction looks at four entries of the mapping only:
    [model_name_or_path], [model_config_name], [tokenizer] and [cache_dir].
    Two mappings that agree on them give the same calls and the same
    outcome, up to the mapping kept in [model_args]; in particular [lr],
    [lr_decay] and [weight_decay] are not looked at, let alone validated,
    when the module is constructed. *)
Theorem construction_reads_four_entries cls args1 args2 t :
  args1 !! "model_name_or_path" = args2 !! "model_name_or_path" →
  args1 !! "model_config_name" = args2 !! "model_config_name" →
  args1 !! "tokenizer" = args2 !! "tokenizer" →
  args1 !! "cache_dir" = args2 !! "cache_dir" →
  LMModule__init__ cls args1 t =
    ((LMModule__init__ cls args2 t).1,
     outcome_map (with_model_args args1) (LMModule__init__ cls args2 t).2).
Proof.
  intros Hname Hcfg Htok Hcache.
  rewrite !construction_two_blocks.
  rewrite !(load_network_cases _ (prepared _) _ (default PyNone (args2 !! "cache_dir")))
    by (unfold prepared; cbn [cache_dir]; by rewrite ?Hcache).
  cbn [prepared model_args]. rewrite Hname, Hcfg.
  repeat first
    [ erewrite attach_tokenizer_cases by reflexivity
    | progress cbn [fst snd self events model_args with_model with_tokenizer prepared]
    | rewrite Htok
    | match goal with
      | |- context [match ?x with _ => _ end] =>
        lazymatch x with
        | attach_tokenizer _ _ => fail
        | context [match _ with _ => _ end] => fail
        | _ => destruct x eqn:?
        end
      end ];
    unfold outcome_map, with_model_args, with_model, with_tokenizer, prepared;
    cbn [model_args cache_dir model tokenizer]; by rewrite ?Hcache.
Qed.

(** X8. Missing entries.  Without [model_name_or_path] construction raises
    [KeyError] before any call is made.  Without [tokenizer], a class that
    has one raises [KeyError] too, but only after the network has been
    built: the loader calls are in the trace. *)
Theorem construction_missing_entries cls args t :
  (args !! "model_name_or_path" = None →
     LMModule__init__ cls args t = (t, Raised (KeyError "model_name_or_path")))
  ∧ (∀ net calls,
       has_tokenizer cls = true →
       args !! "tokenizer" = None →
       loaded_by (auto_class cls) args (default PyNone (args !! "cache_dir")) net calls →
       LMModule__init__ cls args t = (t ++ calls, Raised (KeyError "tokenizer"))).
Proof.
  split.
  - intros Hname. rewrite construction_two_blocks.
    rewrite (load_network_cases _ _ t (default PyNone (args !! "cache_dir")))
      by reflexivity.
    cbn [prepared model_args]. by rewrite Hname.
  - intros net calls Hcls Htok Hby.
    rewrite construction_two_blocks, (load_network_loaded _ _ _ _ _ Hby), Hcls.
    erewrite attach_tokenizer_cases by reflexivity.
    cbn [with_model prepared model_args]. by rewrite Htok.
Qed.

(** X9. What the hub raises while the module is constructed goes to the
    caller as it is, and the calls stop there: a failing [from_pretrained]
    is the only call; a failing [from_config] follows the configuration
    load and is not followed by the log line; a failing tokenizer load
    follows the network's calls; a failing resize follows the tokenizer
    load.  No module is returned in any of these cases. *)
Theorem construction_propagates_hub_errors cls args t :
  let cache := default PyNone (args !! "cache_dir") in
  let auto := auto_class cls in
  (∀ name d,
     args !! "model_name_or_path" = Some name → name ≠ PyNone →
     from_pretrained auto name cache = Raises d →
     LMModule__init__ cls args t =
       (t ++ [Call_from_pretrained auto name cache], Raised (Raised_by_library d)))
  ∧ (∀ cfg_name cfg d,
     args !! "model_name_or_path" = Some PyNone →
     args !! "model_config_name" = Some cfg_name →
     AutoConfig_from_pretrained cfg_name cache = Returns cfg →
     from_config auto cfg = Raises d →
     LMModule__init__ cls args t =
       (t ++ [Call_AutoConfig_from_pretrained cfg_name cache; Call_from_config auto cfg],
        Raised (Raised_by_library d)))
  ∧ (∀ net calls tok_name d,
     has_tokenizer cls = true →
     loaded_by auto args cache net calls →
     args !! "tokenizer" = Some tok_name →
     AutoTokenizer_from_pretrained tok_name (class_tokenizer_kwargs cls) = Raises d →
     LMModule__init__ cls args t =
       (t ++ calls ++
          [Call_AutoTokenizer_from_pretrained tok_name (class_tokenizer_kwargs cls)],
        Raised (Raised_by_library d)))
  ∧ (∀ net calls tok_name tok d,
     has_tokenizer cls = true →
     loaded_by auto args cache net calls →
     args !! "tokenizer" = Some tok_name →
     AutoTokenizer_from_pretrained tok_name (class_tokenizer_kwargs cls) = Returns tok →
     resize_token_embeddings net (tokenizer_len tok) = Raises d →
     LMModule__init__ cls args t =
       (t ++ calls ++
          [Call_AutoTokenizer_from_pretrained tok_name (class_tokenizer_kwargs cls);
           Call_resize_token_embeddings net (tokenizer_len tok)],
        Raised (Raised_by_library d))).
Proof.
  intros cache auto. subst cache auto. repeat split.
  - intros name d Hname Hnone Hload. rewrite construction_two_blocks.
    rewrite (load_network_cases _ _ t (default PyNone (args !! "cache_dir")))
      by reflexivity.
    cbn [prepared model_args]. rewrite Hname, Hload. by destruct name.
  - intros cfg_name cfg d Hname Hcfg Hconf Hnet. rewrite construction_two_blocks.
    rewrite (load_network_cases _ _ t (default PyNone (args !! "cache_dir")))
      by reflexivity.
    cbn [prepared model_args]. by rewrite Hname, Hcfg, Hconf, Hnet.
  - intros net calls tok_name d Hcls Hby Hname Htok.
    rewrite construction_two_blocks, (load_network_loaded _ _ _ _ _ Hby), Hcls.
    erewrite attach_tokenizer_cases by reflexivity.
    cbn [with_model prepared model_args]. rewrite Hname, Htok.
    cbn [events]. by rewrite <- app_assoc.
  - intros net calls tok_name tok d Hcls Hby Hname Htok Hres.
    rewrite construction_two_blocks, (load_network_loaded _ _ _ _ _ Hby), Hcls.
    erewrite attach_tokenizer_cases by reflexivity.
    cbn [with_model prepared model_args]. rewrite Hname, Htok, Hres.
    cbn [events]. by rewrite <- app_assoc.
Qed.

(** ** The hooks, case by case *)

Lemma forward_cases s t x :
  forward x {| self := s; events := t |} =
    match model s with
    | None => ({| self := s; events := t |}, Raised (AttributeError "model"))
    | Some net =>
      match network_call net [x] ∅ with
      | Raises d =>
        ({| self := s; events := t ++ [Call_network net [x] ∅] |},
         Raised (Raised_by_library d))
      | Returns out =>
        ({| self := s; events := t ++ [Call_network net [x] ∅] |},
         match output_logits out with
         | Some logits => Returned logits
         | None => Raised (AttributeError "logits")
         end)
      end
    end.
Proof.
  unfold forward.
  destruct (model s) as [net|] eqn:Hnet; step; [|done].
  destruct (network_call net [x] ∅) as [out|d] eqn:Hcall; step; [|done].
  by destruct (output_logits out).
Qed.

Lemma training_step_cases s t batch batch_idx :
  training_step batch batch_idx {| self := s; events := t |} =
    match model s with
    | None => ({| self := s; events := t |}, Raised (AttributeError "model"))
    | Some net =>
      match network_call net [] batch with
      | Raises d =>
        ({| self := s; events := t ++ [Call_network net [] batch] |},
         Raised (Raised_by_library d))
      | Returns out =>
        match output_loss out with
        | None =>
          ({| self := s; events := t ++ [Call_network net [] batch] |},
           Raised (AttributeError "loss"))
        | Some loss =>
          ({| self := s;
              events := t ++ [Call_network net [] batch; Call_log "train_loss" loss] |},
           match LightningModule_log "train_loss" loss with
           | Returns _ => Returned loss
           | Raises d => Raised (Raised_by_library d)
           end)
        end
      end
    end.
Proof.
  unfold training_step.
  destruct (model s) as [net|] eqn:Hnet; step; [|done].
  destruct (network_call net [] batch) as [out|d] eqn:Hcall; step; [|done].
  destruct (output_loss out) as [loss|]; [|done].
  destruct (LightningModule_log "train_loss" loss) as [[]|d] eqn:Hlog; step;
    by rewrite <- app_assoc.
Qed.

Lemma validation_step_cases s t batch batch_idx :
  validation_step batch batch_idx {| self := s; events := t |} =
    match model s with
    | None => ({| self := s; events := t |}, Raised (AttributeError "model"))
    | Some net =>
      match network_call net [] batch with
      | Raises d =>
        ({| self := s; events := t ++ [Call_network net [] batch] |},
         Raised (Raised_by_library d))
      | Returns out =>
        match output_loss out with
        | None =>
          ({| self := s; events := t ++ [Call_network net [] batch] |},
           Raised (AttributeError "loss"))
        | Some loss =>
          ({| self := s;
              events := t ++ [Call_network net [] batch; Call_log "val_loss" loss] |},
           match LightningModule_log "val_loss" loss with
           | Returns _ => Returned loss
           | Raises d => Raised (Raised_by_library d)
           end)
        end
      end
    end.
Proof.
  unfold validation_step.
  destruct (model s) as [net|] eqn:Hnet; step; [|done].
  destruct (network_call net [] batch) as [out|d] eqn:Hcall; step; [|done].
  destruct (output_loss out) as [loss|]; [|done].
  destruct (LightningModule_log "val_loss" loss) as [[]|d] eqn:Hlog; step;
    by rewrite <- app_assoc.
Qed.

Lemma configure_optimizers_cases s t :
  configure_optimizers {| self := s; events := t |} =
    let st := {| self := s; events := t |} in
    match model_args s !! "lr" with
    | None => (st, Raised (KeyError "lr"))
    | Some lr =>
      if isinstance_float lr then
        match model_args s !! "lr_decay" with
        | None => (st, Raised (KeyError "lr_decay"))
        | Some lr_decay =>
          if isinstance_float lr_decay then
            match model_args s !! "weight_decay" with
            | None => (st, Raised (KeyError "weight_decay"))
            | Some wd =>
              match AdamW (module_parameters s) lr wd with
              | Raises d =>
                ({| self := s;
                    events := t ++ [Call_AdamW (module_parameters s) lr wd] |},
                 Raised (Raised_by_library d))
              | Returns o =>
                ({| self := s;
                    events := t ++ [Call_AdamW (module_parameters s) lr wd;
                                    Call_StepLR o 1 lr_decay] |},
                 match StepLR o 1 lr_decay with
                 | Raises d => Raised (Raised_by_library d)
                 | Returns sch =>
                   Returned (<["optimizer" := Optimizer o]>
                            (<["lr_scheduler" := Scheduler sch]>
                            (<["monitor" := Str "val_loss"]> ∅)))
                 end)
              end
            end
          else (st, Raised (ValueError "Learning rate decay rate should be float"))
        end
      else (st, Raised (ValueError "Learning rate should be float"))
    end.
Proof.
  cbv zeta. unfold configure_optimizers.
  destruct (model_args s !! "lr") as [lr|] eqn:Hlr; step; [|done].
  destruct (isinstance_float lr); cbn [negb]; [|done].
  destruct (model_args s !! "lr_decay") as [lr_decay|] eqn:Hdecay; step; [|done].
  destruct (isinstance_float lr_decay); cbn [negb]; [|done].
  do 2 step.
  destruct (model_args s !! "weight_decay") as [wd|] eqn:Hwd; step; [|done].
  destruct (AdamW (module_parameters s) lr wd) as [o|d] eqn:Hopt; step; [|done].
  step.
  destruct (StepLR o 1 lr_decay) as [sch|d] eqn:Hsch; step; by rewrite <- app_assoc.
Qed.

(** X11. Missing entries in [configure_optimizers].  The three entries are
    read in the order [lr], [lr_decay], [weight_decay], each after the
    previous one has passed its check; the first one that is missing
    raises [KeyError] with its name, and no call has been made. *)
Theorem configure_optimizers_missing_entries s t :
  let st := {| self := s; events := t |} in
  (model_args s !! "lr" = None →
     configure_optimizers st = (st, Raised (KeyError "lr")))
  ∧ (∀ lr,
       model_args s !! "lr" = Some lr → isinstance_float lr = true →
       model_args s !! "lr_decay" = None →
       configure_optimizers st = (st, Raised (KeyError "lr_decay")))
  ∧ (∀ lr lr_decay,
       model_args s !! "lr" = Some lr → isinstance_float lr = true →
       model_args s !! "lr_decay" = Some lr_decay → isinstance_float lr_decay = true →
       model_args s !! "weight_decay" = None →
       configure_optimizers st = (st, Raised (KeyError "weight_decay"))).
Proof.
  intros st. subst st. rewrite configure_optimizers_cases. cbv zeta. repeat split.
  - by intros ->.
  - by intros lr -> -> ->.
  - by intros lr lr_decay -> -> -> -> ->.
Qed.

(** X12. A failing constructor in [configure_optimizers] goes to the caller
    and stops the method: when AdamW raises, StepLR is not called; when
    StepLR raises, both calls have been made; in neither case is a mapping
    returned. *)
Theorem configure_optimizers_propagates_torch_errors s t lr lr_decay wd :
  model_args s !! "lr" = Some lr → isinstance_float lr = true →
  model_args s !! "lr_decay" = Some lr_decay → isinstance_float lr_decay = true →
  model_args s !! "weight_decay" = Some wd →
  (∀ d,
     AdamW (module_parameters s) lr wd = Raises d →
     configure_optimizers {| self := s; events := t |} =
       ({| self := s; events := t ++ [Call_AdamW (module_parameters s) lr wd] |},
        Raised (Raised_by_library d)))
  ∧ (∀ o d,
       AdamW (module_parameters s) lr wd = Returns o →
       StepLR o 1 lr_decay = Raises d →
       configure_optimizers {| self := s; events := t |} =
         ({| self := s;
             events := t ++ [Call_AdamW (module_parameters s) lr wd;
                             Call_StepLR o 1 lr_decay] |},
          Raised (Raised_by_library d))).
Proof.
  intros Hlr Flr Hdecay Fdecay Hwd.
  rewrite configure_optimizers_cases. cbv zeta.
  rewrite Hlr, Flr, Hdecay, Fdecay, Hwd. split.
  - by intros d ->.
  - by intros o d -> ->.
Qed.

(** X13. How a step fails.  On a module without a network it raises
    [AttributeError] with no call made.  What the network raises goes to
    the caller and nothing is logged.  An output without a [loss] raises
    [AttributeError] and nothing is logged.  When the logger raises, the
    loss has been computed and handed to the logger, but the step raises
    instead of returning it.  The same holds for [training_step] with
    ["train_loss"] and for [validation_step] with ["val_loss"]. *)
Theorem steps_failure_modes step name s t batch batch_idx :
  (step = training_step ∧ name = "train_loss")
  ∨ (step = validation_step ∧ name = "val_loss") →
  let st := {| self := s; events := t |} in
  (model s = None → step batch batch_idx st = (st, Raised (AttributeError "model")))
  ∧ (∀ net d,
       model s = Some net → network_call net [] batch = Raises d →
       step batch batch_idx st =
         ({| self := s; events := t ++ [Call_network net [] batch] |},
          Raised (Raised_by_library d)))
  ∧ (∀ net out,
       model s = Some net → network_call net [] batch = Returns out →
       output_loss out = None →
       step batch batch_idx st =
         ({| self := s; events := t ++ [Call_network net [] batch] |},
          Raised (AttributeError "loss")))
  ∧ (∀ net out loss d,
       model s = Some net → network_call net [] batch = Returns out →
       output_loss out = Some loss →
       LightningModule_log name loss = Raises d →
       step batch batch_idx st =
         ({| self := s;
             events := t ++ [Call_network net [] batch; Call_log name loss] |},
          Raised (Raised_by_library d))).
Proof.
  intros [[-> ->]|[-> ->]] st; subst st;
    [rewrite training_step_cases|rewrite validation_step_cases]; repeat split.
  all: try (by intros ->).
  all: try (by intros net d -> ->).
  all: try (by intros net out -> -> ->).
  all: by intros net out loss d -> -> -> ->.
Qed.

(** X14. How [forward] fails, and what it leaves alone.  On a module
    without a network it raises [AttributeError] with no call made; what
    the network raises goes to the caller; an output without [logits]
    raises [AttributeError].  Whatever the outcome, the only call it can
    make is the one call of the network on [x] alone: nothing is logged. *)
Theorem forward_failure_modes s t x :
  let st := {| self := s; events := t |} in
  (model s = None → forward x st = (st, Raised (AttributeError "model")))
  ∧ (∀ net d,
       model s = Some net → network_call net [x] ∅ = Raises d →
       forward x st =
         ({| self := s; events := t ++ [Call_network net [x] ∅] |},
          Raised (Raised_by_library d)))
  ∧ (∀ net out,
       model s = Some net → network_call net [x] ∅ = Returns out →
       output_logits out = None →
       forward x st =
         ({| self := s; events := t ++ [Call_network net [x] ∅] |},
          Raised (AttributeError "logits")))
  ∧ (∀ net, model s = Some net →
       events (forward x st).1 = t ++ [Call_network net [x] ∅]).
Proof.
  intros st. subst st. rewrite forward_cases. repeat split.
  - by intros ->.
  - by intros net d -> ->.
  - by intros net out -> -> ->.
  - intros net ->. by destruct (network_call net [x] ∅).
Qed.


(** X6. A constructed module has a network, and the hooks keep it: after
    any sequence of hooks, [forward] calls the network construction left in
    the module, and never fails for want of one. *)
Theorem forward_after_hooks cls args t t' obj :
  LMModule__init__ cls args t = (t', Returned obj) →
  ∃ net,
    model obj = Some net
    ∧ ∀ hs x,
        let st := call_hooks hs {| self := obj; events := t' |} in
        events (forward x st).1 = events st ++ [Call_network net [x] ∅]
        ∧ (forward x st).2 ≠ Raised (AttributeError "model").
Proof.
  intros Hinit.
  assert (∃ net, model obj = Some net) as [net Hnet].
  { destruct (construction_returned _ _ _ _ _ Hinit) as (net & calls & _ & Hrest).
    destruct (has_tokenizer cls).
    - destruct Hrest as (? & ? & net' & _ & _ & _ & -> & _). by exists net'.
    - destruct Hrest as [-> _]. by exists net. }
  exists net. split; [done|]. intros hs x st.
  pose proof (call_hooks_self hs {| self := obj; events := t' |}) as Hself.
  fold st in Hself. cbn [self] in Hself.
  destruct st as [s1 t1]. cbn [self events] in *. subst s1.
  rewrite forward_cases, Hnet.
  destruct (network_call net [x] ∅) as [out|d]; [|done].
  by destruct (output_logits out).
Qed.

(** X16. The factory pairs the five tags with the five classes one to one:
    its tags are exactly [lm], [mlm], [clm], [cgm] and [plm], two tags never
    give the same class, and every class has its tag. *)
Theorem LM_MODULE_FACTORY_one_to_one :
  dom LM_MODULE_FACTORY = ({["lm"; "mlm"; "clm"; "cgm"; "plm"]} : gset string)
  ∧ (∀ tag1 tag2 cls,
       LM_MODULE_FACTORY !! tag1 = Some cls →
       LM_MODULE_FACTORY !! tag2 = Some cls → tag1 = tag2)
  ∧ (∀ cls, ∃ tag, LM_MODULE_FACTORY !! tag = Some cls).
Proof.
  split; [apply LM_MODULE_FACTORY_tags|]. split; [|apply LM_MODULE_FACTORY_classes].
  assert (Htags : ∀ tag cls, LM_MODULE_FACTORY !! tag = Some cls →
    (tag = "lm" ∧ cls = LMModule) ∨ (tag = "mlm" ∧ cls = MLMModule)
    ∨ (tag = "clm" ∧ cls = CLMModule) ∨ (tag = "cgm" ∧ cls = CGMModule)
    ∨ (tag = "plm" ∧ cls = PLMModule)).
  { intros tag cls. unfold LM_MODULE_FACTORY.
    rewrite !lookup_insert_Some, lookup_empty.
    intros [[<- <-]|[_ [[<- <-]|[_ [[<- <-]|[_ [[<- <-]|[_ [[<- <-]|[_ [=]]]]]]]]]]];
      auto 10. }
  intros tag1 tag2 cls H1 H2.
  destruct (Htags _ _ H1) as [[-> ->]|[[-> ->]|[[-> ->]|[[-> ->]|[-> ->]]]]];
    destruct (Htags _ _ H2) as [[-> ?]|[[-> ?]|[[-> ?]|[[-> ?]|[-> ?]]]]];
    done.
Qed.

(** ** What can be raised, and how often the hub is asked *)


(** X18. The only exceptions [configure_optimizers] raises itself are the
    two [ValueError]s of its checks and [KeyError]s for [lr], [lr_decay]
    and [weight_decay]; anything else comes from torch. *)
Theorem configure_optimizers_exceptions s t e :
  (configure_optimizers {| self := s; events := t |}).2 = Raised e →
  e = ValueError "Learning rate should be float"
  ∨ e = ValueError "Learning rate decay rate should be float"
  ∨ e = KeyError "lr" ∨ e = KeyError "lr_decay" ∨ e = KeyError "weight_decay"
  ∨ ∃ d, e = Raised_by_library d.
Proof.
  rewrite configure_optimizers_cases. cbv zeta.
  repeat match goal with
         | |- context [match ?x with _ => _ end] =>
           lazymatch x with
           | context [match _ with _ => _ end] => fail
           | _ => destruct x
           end
         end; cbn [snd]; intros [= <-]; eauto 10.
Qed.

(** X19. Nothing is retried: whatever the outcome, a construction calls no
    entry point twice, so it makes at most five calls (the log line
    included). *)
Theorem construction_calls_once cls args t :
  ∃ new,
    (LMModule__init__ cls args t).1 = t ++ new
    ∧ NoDup (entry_point <$> new)
    ∧ (length new ≤ 5)%nat.
Proof.
  construction_cases;
    (rewrite <- ?app_assoc; eexists; split;
      [ first [ reflexivity | symmetry; apply app_nil_r ] | ]);
    (split; [|cbn; lia]); cbn [fmap list_fmap entry_point app];
    apply (bool_decide_unpack _); vm_compute; exact I.
Qed.

(** ** The permutation-LM class cannot be built from scratch *)

(** C1 (defect in [PLMModule.init_model]).  With [model_name_or_path] equal
    to [None] the four sibling classes build the network with [from_config]
    of an [Auto*] factory; the permutation-LM class calls
    [XLNetLMHeadModel.from_config], which a concrete class does not have.
    On every hub where that call raises, construction of the class never
    returns a module and never logs ["Training from scratch"]; when the
    configuration itself loads, the two calls made are the configuration
    load and the failing [from_config], whose exception goes to the
    caller. *)
Theorem plm_scratch_never_builds args t :
  concrete_class_lacks_from_config →
  args !! "model_name_or_path" = Some PyNone →
  (∀ obj, (LMModule__init__ PLMModule args t).2 ≠ Returned obj)
  ∧ (∃ new,
       (LMModule__init__ PLMModule args t).1 = t ++ new
       ∧ Logger_info "Training from scratch" ∉ new)
  ∧ (∀ cfg_name cfg,
       args !! "model_config_name" = Some cfg_name →
       AutoConfig_from_pretrained cfg_name (default PyNone (args !! "cache_dir"))
         = Returns cfg →
       ∃ d,
         from_config XLNetLMHeadModel cfg = Raises d
         ∧ LMModule__init__ PLMModule args t =
             (t ++ [Call_AutoConfig_from_pretrained cfg_name
                      (default PyNone (args !! "cache_dir"));
                    Call_from_config XLNetLMHeadModel cfg],
              Raised (Raised_by_library d))).
Proof.
  intros Hlack Hname.
  rewrite construction_two_blocks.
  rewrite (load_network_cases _ _ t (default PyNone (args !! "cache_dir")))
    by reflexivity.
  cbn [prepared model_args auto_class]. rewrite Hname.
  destruct (args !! "model_config_name") as [cfg_name|] eqn:Hcfg.
  2: { cbn [fst snd events]. split; [done|]. split; [|done].
       exists []. split; [by rewrite app_nil_r|]. apply not_elem_of_nil. }
  destruct (AutoConfig_from_pretrained cfg_name _) as [cfg|d0] eqn:Hconf.
  2: { cbn [fst snd events]. split; [done|]. split.
       - eexists [_]. split; [done|].
         rewrite !elem_of_cons, elem_of_nil. by intros [[=]|[]].
       - intros cfg_name' cfg' [= <-] Hc. congruence. }
  destruct (Hlack cfg) as [d Hd]. rewrite Hd.
  cbn [fst snd events]. split; [done|]. split.
  - eexists [_; _]. split; [done|].
    rewrite !elem_of_cons, elem_of_nil. by intros [[=]|[[=]|[]]].
  - intros cfg_name' cfg' [= <-] Hc. rewrite Hconf in Hc.
    injection Hc as <-. by exists d.
Qed.

End Properties.

(** * The definitions at work on the small hub *)

Import ToyHub.

Lemma toy_loader_sets_sep_token name kwargs (tok : toy_tokenizer) tk :
  AutoTokenizer_from_pretrained name kwargs = Returns tok →
  kwargs !! "sep_token" = Some (PyStr tk) → sep_token tok = Some tk.
Proof.
  cbn. unfold load_tokenizer, resolve, special. intros Hload Hkw.
  destruct name as [| | | |[|]]; try done; injection Hload as <-; cbn; by rewrite Hkw.
Qed.

Lemma toy_loader_sets_pad_token name kwargs (tok : toy_tokenizer) tk :
  AutoTokenizer_from_pretrained name kwargs = Returns tok →
  kwargs !! "pad_token" = Some (PyStr tk) → pad_token tok = Some tk.
Proof.
  cbn. unfold load_tokenizer, resolve, special. intros Hload Hkw.
  destruct name as [| | | |[|]]; try done; injection Hload as <-; cbn; by rewrite Hkw.
Qed.

Lemma configure_optimizers_validation_witness :
  model_args (trained int_lr_args) !! "lr" = Some (PyInt 1)
  ∧ isinstance_float (PyInt 1) = false
  ∧ configure_optimizers {| self := trained int_lr_args; events := [] |} =
      ({| self := trained int_lr_args; events := [] |},
       Raised (ValueError "Learning rate should be float")).
Proof.
  split; [reflexivity|]. split; [reflexivity|].
  apply (proj1 (configure_optimizers_validation (trained int_lr_args) []
                  (PyInt 1) eq_refl)); reflexivity.
Defined.

Lemma configure_optimizers_output_witness :
  model_args (trained pretrained_args) !! "lr" = Some (PyFloat f_0_001)
  ∧ model_args (trained pretrained_args) !! "lr_decay" = Some (PyFloat f_0_5)
  ∧ model_args (trained pretrained_args) !! "weight_decay" = Some (PyFloat f_0_01)
  ∧ AdamW (module_parameters (trained pretrained_args)) (PyFloat f_0_001)
          (PyFloat f_0_01) = Returns adamw_0_001
  ∧ StepLR adamw_0_001 1 (PyFloat f_0_5) = Returns (adamw_0_001, 1, PyFloat f_0_5)
  ∧ ∃ out,
      configure_optimizers {| self := trained pretrained_args; events := [] |} =
        ({| self := trained pretrained_args;
            events := [] ++
              [Call_AdamW (module_parameters (trained pretrained_args))
                          (PyFloat f_0_001) (PyFloat f_0_01);
               Call_StepLR adamw_0_001 1 (PyFloat f_0_5)] |},
         Returned out)
      ∧ out !! "optimizer" = Some (Optimizer adamw_0_001)
      ∧ out !! "lr_scheduler" = Some (Scheduler (adamw_0_001, 1, PyFloat f_0_5))
      ∧ out !! "monitor" = Some (Str "val_loss")
      ∧ dom out = ({["optimizer"; "lr_scheduler"; "monitor"]} : gset string).
Proof.
  do 5 (split; [reflexivity|]).
  apply (configure_optimizers_output (trained pretrained_args) []
           (PyFloat f_0_001) (PyFloat f_0_5) (PyFloat f_0_01)
           adamw_0_001 (adamw_0_001, 1, PyFloat f_0_5)); reflexivity.
Defined.

Lemma weight_decay_not_validated_witness :
  model_args (trained str_weight_decay_args) !! "lr" = Some (PyFloat f_0_001)
  ∧ model_args (trained str_weight_decay_args) !! "lr_decay" = Some (PyFloat f_0_5)
  ∧ model_args (trained str_weight_decay_args) !! "weight_decay" = Some (PyStr "heavy")
  ∧ (∀ msg,
       (configure_optimizers
          {| self := trained str_weight_decay_args; events := [] |}).2
       ≠ Raised (ValueError msg))
  ∧ ∃ rest,
      events (configure_optimizers
                {| self := trained str_weight_decay_args; events := [] |}).1 =
        [] ++ Call_AdamW (module_parameters (trained str_weight_decay_args))
                (PyFloat f_0_001) (PyStr "heavy") :: rest.
Proof.
  do 3 (split; [reflexivity|]).
  apply (weight_decay_not_validated (trained str_weight_decay_args) []
           (PyFloat f_0_001) (PyFloat f_0_5) (PyStr "heavy")); reflexivity.
Defined.

Lemma forward_returns_logits_witness :
  model (trained pretrained_args) = Some gpt2
  ∧ network_call gpt2 [7] ∅ = Returns 102
  ∧ output_logits (102 : model_output) = Some 102
  ∧ forward 7 {| self := trained pretrained_args; events := [] |} =
      ({| self := trained pretrained_args;
          events := [] ++ [Call_network gpt2 [7] ∅] |}, Returned 102).
Proof.
  do 3 (split; [reflexivity|]).
  apply (forward_returns_logits (trained pretrained_args) [] gpt2 7 102 102);
    reflexivity.
Defined.

Lemma steps_log_and_return_loss_witness :
  model (trained pretrained_args) = Some gpt2
  ∧ network_call gpt2 [] {["input_ids" := 7]} = Returns 102
  ∧ output_loss (102 : model_output) = Some 102
  ∧ LightningModule_log "train_loss" 102 = Returns ()
  ∧ training_step {["input_ids" := 7]} 0
      {| self := trained pretrained_args; events := [] |} =
      ({| self := trained pretrained_args;
          events := [] ++ [Call_network gpt2 [] {["input_ids" := 7]};
                           Call_log "train_loss" 102] |},
       Returned 102).
Proof.
  do 4 (split; [reflexivity|]).
  apply (steps_log_and_return_loss (trained pretrained_args) [] gpt2
           {["input_ids" := 7]} 0 102 102); reflexivity.
Defined.

Lemma construction_dispatch_witness :
  pretrained_args !! "model_name_or_path" = Some (PyStr "gpt2")
  ∧ PyStr "gpt2" ≠ PyNone
  ∧ from_pretrained AutoModelForCausalLM (PyStr "gpt2")
      (default PyNone (pretrained_args !! "cache_dir")) = Returns gpt2_loaded
  ∧ ∃ rest,
      (LMModule__init__ CLMModule pretrained_args []).1 =
        [] ++ [Call_from_pretrained AutoModelForCausalLM (PyStr "gpt2")
                 (default PyNone (pretrained_args !! "cache_dir"))] ++ rest
      ∧ Forall (follows_load gpt2_loaded) rest
      ∧ ∀ obj, (LMModule__init__ CLMModule pretrained_args []).2 = Returned obj →
          ∃ net', model obj = Some net'
            ∧ (net' = gpt2_loaded
               ∨ ∃ n, resize_token_embeddings gpt2_loaded n = Returns net').
Proof.
  split; [reflexivity|]. split; [discriminate|]. split; [reflexivity|].
  apply (proj1 (construction_dispatch CLMModule pretrained_args [])
           (PyStr "gpt2") gpt2_loaded); [reflexivity|discriminate|reflexivity].
Defined.

Lemma construction_fails_without_config_witness :
  unresolvable_args !! "model_name_or_path" = Some PyNone
  ∧ unresolvable_args !! "model_config_name" = Some (PyStr "")
  ∧ AutoConfig_from_pretrained (PyStr "")
      (default PyNone (unresolvable_args !! "cache_dir")) = Raises "OSError"
  ∧ LMModule__init__ PLMModule unresolvable_args [] =
      ([] ++ [Call_AutoConfig_from_pretrained (PyStr "")
                (default PyNone (unresolvable_args !! "cache_dir"))],
       Raised (Raised_by_library "OSError")).
Proof.
  do 3 (split; [reflexivity|]).
  apply (proj2 (construction_fails_without_config PLMModule unresolvable_args []
                  eq_refl) (PyStr "") "OSError"); reflexivity.
Defined.

Lemma tokenizer_sizes_embeddings_witness :
  has_tokenizer CLMModule = true
  ∧ LMModule__init__ CLMModule pretrained_args [] =
      (clm_trace, Returned (trained pretrained_args))
  ∧ ∃ tok net net0 new,
      tokenizer (trained pretrained_args) = Some tok
      ∧ model (trained pretrained_args) = Some net
      ∧ resize_token_embeddings net0 (tokenizer_len tok) = Returns net
      ∧ embedding_rows net = tokenizer_len tok
      ∧ clm_trace = [] ++ new
      ∧ last new = Some (Call_resize_token_embeddings net0 (tokenizer_len tok))
      ∧ length (List.filter is_tokenizer_load new) = 1%nat.
Proof.
  split; [reflexivity|]. split; [vm_compute; reflexivity|].
  apply (tokenizer_sizes_embeddings CLMModule pretrained_args [] clm_trace
           (trained pretrained_args)).
  - intros net n net' [= <-]. reflexivity.
  - reflexivity.
  - vm_compute. reflexivity.
Defined.

Lemma clm_special_tokens_witness :
  LMModule__init__ CLMModule pretrained_args [] =
    (clm_trace, Returned (trained pretrained_args))
  ∧ ∃ tok tok_name net0 before,
      tokenizer (trained pretrained_args) = Some tok
      ∧ sep_token tok = Some "<|sep|>"
      ∧ pad_token tok = Some "<|pad|>"
      ∧ pretrained_args !! "tokenizer" = Some tok_name
      ∧ AutoTokenizer_from_pretrained tok_name CLM_tokenizer_kwargs = Returns tok
      ∧ CLM_tokenizer_kwargs !! "sep_token" = Some (PyStr "<|sep|>")
      ∧ CLM_tokenizer_kwargs !! "pad_token" = Some (PyStr "<|pad|>")
      ∧ clm_trace = [] ++ before ++
          [Call_AutoTokenizer_from_pretrained tok_name CLM_tokenizer_kwargs;
           Call_resize_token_embeddings net0 (tokenizer_len tok)]
      ∧ Forall (λ ev, is_resize ev = false) before.
Proof.
  split; [vm_compute; reflexivity|].
  apply (clm_special_tokens pretrained_args [] clm_trace (trained pretrained_args)).
  - exact toy_loader_sets_sep_token.
  - exact toy_loader_sets_pad_token.
  - vm_compute. reflexivity.
Defined.

Lemma model_args_not_mutated_witness :
  LMModule__init__ CLMModule pretrained_args [] =
    (clm_trace, Returned (trained pretrained_args))
  ∧ model_args
      (self (call_hooks [Forward 7; Training_step {["input_ids" := 7]} 0;
                         Validation_step {["input_ids" := 7]} 0;
                         Configure_optimizers]
               {| self := trained pretrained_args; events := clm_trace |})) =
    pretrained_args.
Proof.
  split; [vm_compute; reflexivity|].
  apply (proj2 (proj2 (proj2 (proj2 (proj2
           (model_args_not_mutated (trained pretrained_args) clm_trace)))))
           CLMModule pretrained_args []).
  vm_compute. reflexivity.
Defined.

(** ** Some runs *)

(** Fresh weights: the cache directory of the mapping goes to the
    configuration loader, and the log line follows the two calls. *)
Example scratch_run :
  LMModule__init__ MLMModule scratch_args [] =
    ([Call_AutoConfig_from_pretrained (PyStr "gpt2") (PyStr "/tmp/cache");
      Call_from_config AutoModelForMaskedLM "gpt2";
      Logger_info "Training from scratch";
      Call_AutoTokenizer_from_pretrained (PyStr "gpt2") tokenizer_kwargs;
      Call_resize_token_embeddings
        {| toy_class := AutoModelForMaskedLM; toy_origin := "gpt2"; toy_rows := 100 |}
        100],
     Returned
       {| model_args := scratch_args;
          cache_dir := Some (PyStr "/tmp/cache");
          model := Some {| toy_class := AutoModelForMaskedLM; toy_origin := "gpt2";
                           toy_rows := 100 |};
          tokenizer := Some {| toy_vocab := 100; toy_sep := None; toy_pad := None |} |}).
Proof. vm_compute. reflexivity. Qed.

(** The plain class loads no tokenizer and resizes nothing. *)
Example lm_run :
  LMModule__init__ LMModule pretrained_args [] =
    ([Call_from_pretrained AutoModel (PyStr "gpt2") PyNone],
     Returned
       {| model_args := pretrained_args;
          cache_dir := Some PyNone;
          model := Some {| toy_class := AutoModel; toy_origin := "gpt2";
                           toy_rows := 100 |};
          tokenizer := None |}).
Proof. vm_compute. reflexivity. Qed.

(** A mapping without [tokenizer]: the network is loaded, then [KeyError]. *)
Example no_tokenizer_entry_run :
  LMModule__init__ CGMModule (delete "tokenizer" pretrained_args) [] =
    ([Call_from_pretrained AutoModelForSeq2SeqLM (PyStr "gpt2") PyNone],
     Raised (KeyError "tokenizer")).
Proof. vm_compute. reflexivity. Qed.

(** [lr_decay = 1], an int: the second check fires. *)
Example int_lr_decay_run :
  (configure_optimizers
     {| self := trained (<["lr_decay" := PyInt 1]> pretrained_args); events := [] |}).2 =
    Raised (ValueError "Learning rate decay rate should be float").
Proof. vm_compute. reflexivity. Qed.

(** [True] is not a float either. *)
Example bool_lr_run :
  (configure_optimizers
     {| self := trained (<["lr" := PyBool true]> pretrained_args); events := [] |}).2 =
    Raised (ValueError "Learning rate should be float").
Proof. vm_compute. reflexivity. Qed.

(** A module that never got a network cannot run [forward]. *)
Example forward_without_model_run :
  (forward 7 {| self := BaseLightningModule__init__ pretrained_args; events := [] |}).2 =
    Raised (AttributeError "model").
Proof. vm_compute. reflexivity. Qed.

(** ** More runs *)

(** An int [lr] does not stop construction: the calls and the module are
    those of the float mapping. *)
Lemma construction_reads_four_entries_witness :
  int_lr_args !! "model_name_or_path" = pretrained_args !! "model_name_or_path"
  ∧ int_lr_args !! "model_config_name" = pretrained_args !! "model_config_name"
  ∧ int_lr_args !! "tokenizer" = pretrained_args !! "tokenizer"
  ∧ int_lr_args !! "cache_dir" = pretrained_args !! "cache_dir"
  ∧ LMModule__init__ CLMModule int_lr_args [] =
      ((LMModule__init__ CLMModule pretrained_args []).1,
       outcome_map (with_model_args int_lr_args)
         (LMModule__init__ CLMModule pretrained_args []).2).
Proof.
  do 4 (split; [reflexivity|]).
  apply (construction_reads_four_entries CLMModule int_lr_args pretrained_args []);
    reflexivity.
Defined.

Lemma forward_after_hooks_witness :
  LMModule__init__ CLMModule pretrained_args [] =
    (clm_trace, Returned (trained pretrained_args))
  ∧ ∃ net,
      model (trained pretrained_args) = Some net
      ∧ ∀ hs x,
          let st := call_hooks hs {| self := trained pretrained_args;
                                     events := clm_trace |} in
          events (forward x st).1 = events st ++ [Call_network net [x] ∅]
          ∧ (forward x st).2 ≠ Raised (AttributeError "model").
Proof.
  split; [reflexivity|].
  apply (forward_after_hooks CLMModule pretrained_args [] clm_trace
           (trained pretrained_args)).
  reflexivity.
Defined.

Lemma construction_missing_entries_witness :
  (∅ : gmap string py_value) !! "model_name_or_path" = None
  ∧ LMModule__init__ MLMModule ∅ [] = ([], Raised (KeyError "model_name_or_path")).
Proof.
  split; [reflexivity|].
  apply (proj1 (construction_missing_entries MLMModule ∅ [])). reflexivity.
Defined.

Lemma construction_propagates_hub_errors_witness :
  <["model_name_or_path" := PyStr ""]> pretrained_args !! "model_name_or_path"
    = Some (PyStr "")
  ∧ PyStr "" ≠ PyNone
  ∧ from_pretrained (auto_class CGMModule) (PyStr "")
      (default PyNone
         (<["model_name_or_path" := PyStr ""]> pretrained_args !! "cache_dir"))
      = Raises "OSError"
  ∧ LMModule__init__ CGMModule (<["model_name_or_path" := PyStr ""]> pretrained_args) [] =
      ([] ++ [Call_from_pretrained (auto_class CGMModule) (PyStr "")
                (default PyNone
                   (<["model_name_or_path" := PyStr ""]> pretrained_args
                      !! "cache_dir"))],
       Raised (Raised_by_library "OSError")).
Proof.
  split; [reflexivity|]. split; [discriminate|]. split; [reflexivity|].
  apply (proj1 (construction_propagates_hub_errors CGMModule
                  (<["model_name_or_path" := PyStr ""]> pretrained_args) [])
           (PyStr "") "OSError"); [reflexivity|discriminate|reflexivity].
Defined.


Lemma configure_optimizers_missing_entries_witness :
  model_args (trained (delete "lr" pretrained_args)) !! "lr" = None
  ∧ configure_optimizers
      {| self := trained (delete "lr" pretrained_args); events := [] |} =
      ({| self := trained (delete "lr" pretrained_args); events := [] |},
       Raised (KeyError "lr")).
Proof.
  split; [reflexivity|].
  apply (proj1 (configure_optimizers_missing_entries
                  (trained (delete "lr" pretrained_args)) [])). reflexivity.
Defined.

Lemma configure_optimizers_exceptions_witness :
  (configure_optimizers {| self := trained int_lr_args; events := [] |}).2 =
    Raised (ValueError "Learning rate should be float")
  ∧ (ValueError "Learning rate should be float" = ValueError "Learning rate should be float"
     ∨ ValueError "Learning rate should be float"
       = ValueError "Learning rate decay rate should be float"
     ∨ ValueError "Learning rate should be float" = KeyError "lr"
     ∨ ValueError "Learning rate should be float" = KeyError "lr_decay"
     ∨ ValueError "Learning rate should be float" = KeyError "weight_decay"
     ∨ ∃ d, ValueError "Learning rate should be float" = Raised_by_library d).
Proof.
  split; [reflexivity|].
  apply (configure_optimizers_exceptions (trained int_lr_args) []). reflexivity.
Defined.


Lemma forward_failure_modes_witness :
  model (BaseLightningModule__init__ (T := hub) pretrained_args) = None
  ∧ forward (T := hub) 7
      {| self := BaseLightningModule__init__ pretrained_args; events := [] |} =
      ({| self := BaseLightningModule__init__ pretrained_args; events := [] |},
       Raised (AttributeError "model")).
Proof.
  split; [reflexivity|].
  apply (proj1 (forward_failure_modes (T := hub)
                  (BaseLightningModule__init__ pretrained_args) [] 7)). reflexivity.
Defined.

(** On the stricter hub: a string [weight_decay] passes the module's
    checks and is refused by AdamW; no scheduler is built. *)
Lemma configure_optimizers_propagates_torch_errors_witness :
  str_weight_decay_args !! "lr" = Some (PyFloat f_0_001)
  ∧ str_weight_decay_args !! "lr_decay" = Some (PyFloat f_0_5)
  ∧ str_weight_decay_args !! "weight_decay" = Some (PyStr "heavy")
  ∧ AdamW (Transformers := StrictHub.strict)
      (module_parameters (StrictHub.trained str_weight_decay_args))
      (PyFloat f_0_001) (PyStr "heavy") = Raises "TypeError"
  ∧ configure_optimizers
      {| self := StrictHub.trained str_weight_decay_args; events := [] |} =
      ({| self := StrictHub.trained str_weight_decay_args;
          events := [] ++ [Call_AdamW
                             (module_parameters (StrictHub.trained str_weight_decay_args))
                             (PyFloat f_0_001) (PyStr "heavy")] |},
       Raised (Raised_by_library "TypeError")).
Proof.
  do 4 (split; [reflexivity|]).
  apply (proj1 (configure_optimizers_propagates_torch_errors
                  (StrictHub.trained str_weight_decay_args) []
                  (PyFloat f_0_001) (PyFloat f_0_5) (PyStr "heavy")
                  eq_refl eq_refl eq_refl eq_refl eq_refl)). reflexivity.
Defined.

(** On the stricter hub: an empty batch makes the network raise, and
    nothing is logged. *)
Lemma steps_failure_modes_witness :
  network_call (Transformers := StrictHub.strict) gpt2 [] ∅ = Raises "ValueError"
  ∧ validation_step (T := StrictHub.strict) ∅ 0
      {| self := StrictHub.trained pretrained_args; events := [] |} =
      ({| self := StrictHub.trained pretrained_args;
          events := [] ++ [Call_network (gpt2 : @network StrictHub.strict) [] ∅] |},
       Raised (Raised_by_library "ValueError")).
Proof.
  split; [reflexivity|].
  apply (proj1 (proj2 (steps_failure_modes validation_step "val_loss"
                         (StrictHub.trained pretrained_args) [] ∅ 0
                         (or_intror (conj eq_refl eq_refl))))
           gpt2 "ValueError"); reflexivity.
Defined.

(** On the stricter hub: the permutation-LM class cannot be built fresh,
    and the log line is not written. *)
Example plm_scratch_run :
  LMModule__init__ (T := StrictHub.strict) PLMModule scratch_args [] =
    ([Call_AutoConfig_from_pretrained (PyStr "gpt2") (PyStr "/tmp/cache");
      Call_from_config XLNetLMHeadModel ("gpt2" : @config StrictHub.strict)],
     Raised (Raised_by_library "AttributeError")).
Proof. reflexivity. Qed.

(** On the stricter hub: a batch without [labels] gives an output without a
    loss, and the step raises instead of logging. *)
Example no_labels_run :
  (training_step (T := StrictHub.strict) {["input_ids" := 7]} 0
     {| self := StrictHub.trained pretrained_args; events := [] |}).2 =
    Raised (AttributeError "loss").
Proof. reflexivity. Qed.

(** On the stricter hub, where [XLNetLMHeadModel.from_config] raises: the
    permutation-LM class with [model_name_or_path = None] loads the
    configuration, fails to build the network and logs nothing. *)
Lemma plm_scratch_never_builds_witness :
  concrete_class_lacks_from_config (T := StrictHub.strict)
  ∧ scratch_args !! "model_name_or_path" = Some PyNone
  ∧ (∀ obj,
       (LMModule__init__ (T := StrictHub.strict) PLMModule scratch_args []).2
       ≠ Returned obj)
  ∧ (∃ new,
       (LMModule__init__ (T := StrictHub.strict) PLMModule scratch_args []).1 =
         [] ++ new
       ∧ Logger_info "Training from scratch" ∉ new)
  ∧ (∀ cfg_name cfg,
       scratch_args !! "model_config_name" = Some cfg_name →
       AutoConfig_from_pretrained (Transformers := StrictHub.strict) cfg_name
         (default PyNone (scratch_args !! "cache_dir")) = Returns cfg →
       ∃ d,
         from_config (Transformers := StrictHub.strict) XLNetLMHeadModel cfg = Raises d
         ∧ LMModule__init__ (T := StrictHub.strict) PLMModule scratch_args [] =
             ([] ++ [Call_AutoConfig_from_pretrained cfg_name
                       (default PyNone (scratch_args !! "cache_dir"));
                     Call_from_config XLNetLMHeadModel cfg],
              Raised (Raised_by_library d))).
Proof.
  split; [intros cfg; exists "AttributeError"; reflexivity|].
  split; [reflexivity|].
  apply (plm_scratch_never_builds (T := StrictHub.strict) scratch_args []).
  - intros cfg. exists "AttributeError". reflexivity.
  - reflexivity.
Defined.
